(** * BusinessScraperForm: the search form, its request and its CSV download

    A shallow embedding of the two form components of the repository:

    - [Multipart]: [src/components/BusinessScraperForm.tsx], French keys, the
      criteria filtered into a [FormData] body;
    - [JsonForm]: the second form component (English keys, fiber eligibility),
      the criteria sent whole as a JSON body.

    Both components share [handleInputChange], [downloadCSV] and the
    try/catch/finally skeleton of [handleSubmit]; they differ in the initial
    criteria, in the widgets and in the request they build. *)

From Stdlib Require Import List String Ascii Bool Arith Lia.
From Stdlib Require Import Numbers.DecimalString.
Import ListNotations.
Open Scope string_scope.
Open Scope list_scope.

(* ================================================================= *)
(** ** JavaScript values and objects *)

(** The values a criteria field holds: [string | boolean]. *)
Inductive Value : Type :=
| VStr (s : string)
| VBool (b : bool).

Definition Value_eq_dec (v w : Value) : {v = w} + {v <> w}.
Proof. decide equality; [apply string_dec | apply bool_dec]. Defined.

(** [value.toString()]. *)
Definition toString (v : Value) : string :=
  match v with
  | VStr s => s
  | VBool true => "true"
  | VBool false => "false"
  end.

(** [v !== w]: strict inequality, no coercion between strings and booleans. *)
Definition strict_neq (v w : Value) : bool :=
  if Value_eq_dec v w then false else true.

(** A plain object: own properties in insertion order. *)
Definition Obj : Type := list (string * Value).

Fixpoint obj_get (o : Obj) (key : string) : option Value :=
  match o with
  | [] => None
  | (k, v) :: rest => if String.eqb k key then Some v else obj_get rest key
  end.

(** Property definition as object spread and computed keys perform it: an
    existing key keeps its position and takes the new value, a new key is
    added at the end. *)
Fixpoint obj_set (o : Obj) (key : string) (value : Value) : Obj :=
  match o with
  | [] => [(key, value)]
  | (k, v) :: rest =>
      if String.eqb k key then (k, value) :: rest
      else (k, v) :: obj_set rest key value
  end.


Definition Object_entries (o : Obj) : list (string * Value) := o.

Definition obj_keys (o : Obj) : list string := map fst o.

(* ================================================================= *)
(** ** Platform functions the components call *)

(** Decimal text of a number, as a template literal prints it. *)
Definition decimal (n : nat) : string :=
  NilEmpty.string_of_uint (Nat.to_uint n).

(** The UTC fields of a time value, as [toISOString] reads them. *)
Record DateUTC : Type := mkDate {
  year : nat;
  month : nat;
  day : nat;
  hours : nat;
  minutes : nat;
  seconds : nat;
  milliseconds : nat
}.

Fixpoint zeros (n : nat) : string :=
  match n with
  | O => ""
  | S m => String "0" (zeros m)
  end.

Definition pad (width n : nat) : string :=
  let d := decimal n in zeros (width - String.length d) ++ d.

(** [Date.prototype.toISOString]: [YYYY-MM-DDTHH:mm:ss.sssZ], and the
    expanded [+YYYYYY] year when the year has more than four digits. *)
Definition toISOString (d : DateUTC) : string :=
  (if Nat.leb (String.length (decimal (year d))) 4
   then pad 4 (year d) else "+" ++ pad 6 (year d))
  ++ "-" ++ pad 2 (month d) ++ "-" ++ pad 2 (day d)
  ++ "T" ++ pad 2 (hours d) ++ ":" ++ pad 2 (minutes d) ++ ":"
  ++ pad 2 (seconds d) ++ "." ++ pad 3 (milliseconds d) ++ "Z".

(** [s.split(sep)] for a separator of one character. *)
Fixpoint split (sep : ascii) (s : string) : list string :=
  match s with
  | EmptyString => [EmptyString]
  | String c rest =>
      if Ascii.eqb c sep then EmptyString :: split sep rest
      else match split sep rest with
           | [] => [String c EmptyString]
           | piece :: pieces => String c piece :: pieces
           end
  end.

(** [`${pieces[0]}`]: the first element, or the text of [undefined]. *)
Definition first_piece (pieces : list string) : string :=
  match pieces with
  | [] => "undefined"
  | piece :: _ => piece
  end.

(** JSON text of a string: quotes, with the escapes [JSON.stringify] uses. *)
Definition hex_digit (n : nat) : ascii :=
  match n with
  | 0 => "0" | 1 => "1" | 2 => "2" | 3 => "3" | 4 => "4" | 5 => "5"
  | 6 => "6" | 7 => "7" | 8 => "8" | 9 => "9" | 10 => "a" | 11 => "b"
  | 12 => "c" | 13 => "d" | 14 => "e" | _ => "f"
  end%char.

Definition backslash : ascii := ascii_of_nat 92.
Definition dquote : ascii := ascii_of_nat 34.

Definition escaped (c : ascii) : string := String backslash (String c EmptyString).

Definition json_escape_char (c : ascii) : string :=
  let n := nat_of_ascii c in
  if Nat.eqb n 34 then escaped dquote
  else if Nat.eqb n 92 then escaped backslash
  else if Nat.eqb n 8 then escaped "b"
  else if Nat.eqb n 12 then escaped "f"
  else if Nat.eqb n 10 then escaped "n"
  else if Nat.eqb n 13 then escaped "r"
  else if Nat.eqb n 9 then escaped "t"
  else if Nat.ltb n 32 then
    String backslash
      ("u00" ++ String (hex_digit (n / 16)) (String (hex_digit (n mod 16)) EmptyString))
  else String c EmptyString.

Fixpoint json_escape (s : string) : string :=
  match s with
  | EmptyString => EmptyString
  | String c rest => json_escape_char c ++ json_escape rest
  end.

Definition json_string (s : string) : string :=
  String dquote (json_escape s ++ String dquote EmptyString).

Definition json_value (v : Value) : string :=
  match v with
  | VStr s => json_string s
  | VBool true => "true"
  | VBool false => "false"
  end.

Definition json_member (kv : string * Value) : string :=
  json_string (fst kv) ++ ":" ++ json_value (snd kv).

(** [JSON.stringify(o)] on an object of strings and booleans: every own
    property, in order. *)
Definition JSON_stringify (o : Obj) : string :=
  "{" ++ String.concat "," (map json_member (Object_entries o)) ++ "}".

(* ================================================================= *)
(** ** Effects: exceptions, promises, the DOM and the component state *)

Inductive Exn : Type :=
| Error (message : string)
| TypeError (message : string).

(** How a promise settles. *)
Inductive Settled (A : Type) : Type :=
| Fulfilled (a : A)
| Rejected (e : Exn).
Arguments Fulfilled {A} a.
Arguments Rejected {A} e.

(** A response: its status and what reading its body as text settles to. *)
Record Response : Type := mkResponse {
  status : nat;
  body : Settled string
}.

(** [response.ok]: the status is in the range 200 to 299. *)
Definition ok (r : Response) : bool :=
  Nat.leb 200 (status r) && Nat.leb (status r) 299.

Inductive Body : Type :=
| FormDataBody (entries : list (string * string))
| TextBody (text : string).

Record Request : Type := mkRequest {
  url : string;
  method : string;
  headers : list (string * string);
  payload : Body
}.

Record Blob : Type := mkBlob {
  blobParts : list string;
  blobType : string
}.

(** An anchor element; [href] holds the blob its object URL stands for. *)
Record Anchor : Type := mkAnchor {
  href : option Blob;
  download : option string
}.

Record File : Type := mkFile {
  file_name : string;
  file_content : string;
  file_type : string
}.

Record Toast : Type := mkToast {
  title : string;
  description : string;
  className : option string;
  variant : option string
}.

(** Synchronous commands. *)
Inductive Cmd : Type :=
| PreventDefault
| SetIsLoading (b : bool)
| SetFormData (update : Obj -> Obj)
| AppendChild (link : Anchor)
| Click (link : Anchor)
| RemoveChild (link : Anchor)
| ShowToast (t : Toast)
| ConsoleError (label : string) (e : Exn).

(** Programs: a result, a thrown exception, a command, a reading of the
    clock, or an [await] on the network. *)
Inductive Prog (A : Type) : Type :=
| Ret (a : A)
| Throw (e : Exn)
| Do (c : Cmd) (k : Prog A)
| NewDate (k : DateUTC -> Prog A)
| AwaitFetch (rq : Request) (k : Settled Response -> Prog A)
| AwaitText (r : Response) (k : Settled string -> Prog A).
Arguments Ret {A} a.
Arguments Throw {A} e.
Arguments Do {A} c k.
Arguments NewDate {A} k.
Arguments AwaitFetch {A} rq k.
Arguments AwaitText {A} r k.

Fixpoint bind {A B : Type} (p : Prog A) (f : A -> Prog B) : Prog B :=
  match p with
  | Ret a => f a
  | Throw e => Throw e
  | Do c k => Do c (bind k f)
  | NewDate k => NewDate (fun d => bind (k d) f)
  | AwaitFetch rq k => AwaitFetch rq (fun s => bind (k s) f)
  | AwaitText r k => AwaitText r (fun s => bind (k s) f)
  end.

Declare Scope prog_scope.
Delimit Scope prog_scope with prog.
Notation "x <- p ;; q" := (bind p (fun x => q))
  (at level 61, p at next level, right associativity) : prog_scope.
Notation "p ;; q" := (bind p (fun _ => q))
  (at level 61, right associativity) : prog_scope.
Open Scope prog_scope.

Definition perform (c : Cmd) : Prog unit := Do c (Ret tt).

(** [try { p } catch (error) { h error }]. *)
Fixpoint try_catch {A : Type} (p : Prog A) (h : Exn -> Prog A) : Prog A :=
  match p with
  | Ret a => Ret a
  | Throw e => h e
  | Do c k => Do c (try_catch k h)
  | NewDate k => NewDate (fun d => try_catch (k d) h)
  | AwaitFetch rq k => AwaitFetch rq (fun s => try_catch (k s) h)
  | AwaitText r k => AwaitText r (fun s => try_catch (k s) h)
  end.

(** [try { p } finally { f }]: [f] runs on both exits, then the exit of [p]
    stands unless [f] throws. *)
Fixpoint finally {A : Type} (p : Prog A) (f : Prog unit) : Prog A :=
  match p with
  | Ret a => f ;; Ret a
  | Throw e => f ;; Throw e
  | Do c k => Do c (finally k f)
  | NewDate k => NewDate (fun d => finally (k d) f)
  | AwaitFetch rq k => AwaitFetch rq (fun s => finally (k s) f)
  | AwaitText r k => AwaitText r (fun s => finally (k s) f)
  end.

(** [await promise]: the value, or the rejection thrown. *)
Definition settle {A : Type} (s : Settled A) : Prog A :=
  match s with
  | Fulfilled a => Ret a
  | Rejected e => Throw e
  end.

Definition fetch (input : string) (method_ : string)
    (headers_ : list (string * string)) (body_ : Body) : Prog Response :=
  AwaitFetch (mkRequest input method_ headers_ body_) settle.

Definition text (r : Response) : Prog string := AwaitText r settle.

Definition new_Date : Prog DateUTC := NewDate Ret.

Definition preventDefault : Prog unit := perform PreventDefault.
Definition setIsLoading (b : bool) : Prog unit := perform (SetIsLoading b).
Definition setFormData (update : Obj -> Obj) : Prog unit :=
  perform (SetFormData update).
Definition appendChild (link : Anchor) : Prog unit := perform (AppendChild link).
Definition click (link : Anchor) : Prog unit := perform (Click link).
Definition removeChild (link : Anchor) : Prog unit := perform (RemoveChild link).
Definition toast (t : Toast) : Prog unit := perform (ShowToast t).
Definition console_error (label : string) (e : Exn) : Prog unit :=
  perform (ConsoleError label e).

(** What the commands act on: the two state cells of the component, the
    submit event, the clock, and the logs of what reached the outside. *)
Record World : Type := mkWorld {
  isLoading : bool;
  formData : Obj;
  defaultPrevented : bool;
  clock : DateUTC;
  children : list Anchor;
  downloads : list File;
  toasts : list Toast;
  console : list (string * Exn);
  requests : list Request
}.

Definition saved (link : Anchor) : list File :=
  match href link, download link with
  | Some b, Some name =>
      [mkFile name (String.concat EmptyString (blobParts b)) (blobType b)]
  | _, _ => []
  end.

Definition Anchor_eq_dec (a b : Anchor) : {a = b} + {a <> b}.
Proof.
  repeat decide equality; apply string_dec.
Defined.

Definition exec (c : Cmd) (w : World) : World :=
  match c with
  | PreventDefault =>
      mkWorld (isLoading w) (formData w) true (clock w) (children w)
        (downloads w) (toasts w) (console w) (requests w)
  | SetIsLoading b =>
      mkWorld b (formData w) (defaultPrevented w) (clock w) (children w)
        (downloads w) (toasts w) (console w) (requests w)
  | SetFormData update =>
      mkWorld (isLoading w) (update (formData w)) (defaultPrevented w) (clock w)
        (children w) (downloads w) (toasts w) (console w) (requests w)
  | AppendChild link =>
      mkWorld (isLoading w) (formData w) (defaultPrevented w) (clock w)
        (children w ++ [link]) (downloads w) (toasts w) (console w) (requests w)
  | Click link =>
      mkWorld (isLoading w) (formData w) (defaultPrevented w) (clock w)
        (children w) (downloads w ++ saved link) (toasts w) (console w)
        (requests w)
  | RemoveChild link =>
      mkWorld (isLoading w) (formData w) (defaultPrevented w) (clock w)
        (remove Anchor_eq_dec link (children w)) (downloads w) (toasts w)
        (console w) (requests w)
  | ShowToast t =>
      mkWorld (isLoading w) (formData w) (defaultPrevented w) (clock w)
        (children w) (downloads w) (toasts w ++ [t]) (console w) (requests w)
  | ConsoleError label e =>
      mkWorld (isLoading w) (formData w) (defaultPrevented w) (clock w)
        (children w) (downloads w) (toasts w) (console w ++ [(label, e)])
        (requests w)
  end.

Definition sent (rq : Request) (w : World) : World :=
  mkWorld (isLoading w) (formData w) (defaultPrevented w) (clock w)
    (children w) (downloads w) (toasts w) (console w) (requests w ++ [rq]).

(** One call run to its end, the network answering each request at once. *)
Fixpoint run {A : Type} (net : Request -> Settled Response) (p : Prog A)
    (w : World) : World * Settled A :=
  match p with
  | Ret a => (w, Fulfilled a)
  | Throw e => (w, Rejected e)
  | Do c k => run net k (exec c w)
  | NewDate k => run net (k (clock w)) w
  | AwaitFetch rq k => run net (k (net rq)) (sent rq w)
  | AwaitText r k => run net (k (body r)) w
  end.

(* ================================================================= *)
(** ** The code the two components share

    [handleInputChange] and [downloadCSV] read the same in both files. *)

Definition handleInputChange (field : string) (value : Value) : Prog unit :=
  setFormData (fun prev => obj_set prev field value).

Definition createElement_a : Anchor := mkAnchor None None.
Definition set_href (link : Anchor) (b : Blob) : Anchor :=
  mkAnchor (Some b) (download link).
Definition set_download (link : Anchor) (filename : string) : Anchor :=
  mkAnchor (href link) (Some filename).

Definition downloadCSV (data filename : string) : Prog unit :=
  let blob := mkBlob [data] "text/csv;charset=utf-8;" in
  let link := createElement_a in
  let link := set_href link blob in
  let link := set_download link filename in
  appendChild link ;;
  click link ;;
  removeChild link.

(* ================================================================= *)
(** ** Widgets *)

Inductive Widget : Type :=
| TextInput (field : string)
| NumberInput (field : string)
| SelectOf (field : string) (items : list string)
| RadioGroupOf (field : string) (items : list string)
| CheckboxOf (field : string).

Definition field_of (wd : Widget) : string :=
  match wd with
  | TextInput f | NumberInput f | SelectOf f _ | RadioGroupOf f _
  | CheckboxOf f => f
  end.

Definition Widget_eq_dec (a b : Widget) : {a = b} + {a <> b}.
Proof.
  decide equality; try apply string_dec; apply (list_eq_dec string_dec).
Defined.

Definition is_digit (c : ascii) : bool :=
  Nat.leb 48 (nat_of_ascii c) && Nat.leb (nat_of_ascii c) 57.

Fixpoint skip_digits (s : string) : string :=
  match s with
  | EmptyString => EmptyString
  | String c rest => if is_digit c then skip_digits rest else s
  end.

(** One or more digits read off the front; what follows them. *)
Definition digits1 (s : string) : option string :=
  match s with
  | EmptyString => None
  | String c rest => if is_digit c then Some (skip_digits rest) else None
  end.

Definition exponent_ok (s : string) : bool :=
  match s with
  | EmptyString => true
  | String c rest =>
      if Ascii.eqb c "e" || Ascii.eqb c "E" then
        let unsigned :=
          match rest with
          | String sign more =>
              if Ascii.eqb sign "-" || Ascii.eqb sign "+" then more else rest
          | EmptyString => rest
          end in
        match digits1 unsigned with
        | Some EmptyString => true
        | _ => false
        end
      else false
  end.

Definition fraction (s : string) : option string :=
  match s with
  | String c rest => if Ascii.eqb c "." then digits1 rest else None
  | EmptyString => None
  end.

(** A valid floating-point number, the only non-empty value an input of
    type number reports. *)
Definition valid_number (s : string) : bool :=
  let unsigned :=
    match s with
    | String c rest => if Ascii.eqb c "-" then rest else s
    | EmptyString => s
    end in
  match digits1 unsigned with
  | Some rest =>
      match fraction rest with
      | Some rest' => exponent_ok rest'
      | None => exponent_ok rest
      end
  | None =>
      match fraction unsigned with
      | Some rest' => exponent_ok rest'
      | None => false
      end
  end.

(** The values a widget hands to its change handler. *)
Definition offers (wd : Widget) (v : Value) : bool :=
  match wd, v with
  | TextInput _, VStr _ => true
  | NumberInput _, VStr s => String.eqb s EmptyString || valid_number s
  | SelectOf _ items, VStr s => existsb (String.eqb s) items
  | RadioGroupOf _ items, VStr s => existsb (String.eqb s) items
  | CheckboxOf _, VBool _ => true
  | _, _ => false
  end.

(** A form component: its first criteria, its widgets, its submit handler
    as the render with the given criteria closes over them. *)
Record Form : Type := mkForm {
  initial : Obj;
  widgets : list Widget;
  onSubmit : Obj -> Prog unit
}.

(* ================================================================= *)
(** ** The component in the browser: events, pending awaits *)

(** A call stopped at an [await]. *)
Inductive Suspended : Type :=
| OnFetch (rq : Request) (k : Settled Response -> Prog unit)
| OnText (r : Response) (k : Settled string -> Prog unit).

(** Run up to the next [await] or to the end. *)
Fixpoint advance (p : Prog unit) (w : World)
    : World * (Suspended + Settled unit) :=
  match p with
  | Ret a => (w, inr (Fulfilled a))
  | Throw e => (w, inr (Rejected e))
  | Do c k => advance k (exec c w)
  | NewDate k => advance (k (clock w)) w
  | AwaitFetch rq k => (sent rq w, inl (OnFetch rq k))
  | AwaitText r k => (w, inl (OnText r k))
  end.

Record App : Type := mkApp {
  world : World;
  pending : list Suspended;
  unhandled : list Exn
}.

Definition mount (F : Form) (now : DateUTC) : App :=
  mkApp (mkWorld false (initial F) false now [] [] [] [] []) [] [].

(** Run [p] in the application, the other pending calls being [others]. *)
Definition resume (p : Prog unit) (others : list Suspended) (a : App) : App :=
  match advance p (world a) with
  | (w, inl s) => mkApp w (others ++ [s]) (unhandled a)
  | (w, inr (Fulfilled _)) => mkApp w others (unhandled a)
  | (w, inr (Rejected e)) => mkApp w others (unhandled a ++ [e])
  end.

Fixpoint without {A : Type} (n : nat) (l : list A) : list A :=
  match n, l with
  | _, [] => []
  | O, _ :: rest => rest
  | S m, x :: rest => x :: without m rest
  end.

(** [disabled={isLoading}] on the submit button. *)
Definition submit_disabled (w : World) : bool := isLoading w.

Definition set_clock (now : DateUTC) (w : World) : World :=
  mkWorld (isLoading w) (formData w) (defaultPrevented w) now (children w)
    (downloads w) (toasts w) (console w) (requests w).

Inductive Event : Type :=
| Change (wd : Widget) (v : Value)
| Submit
| Respond (n : nat) (s : Settled Response)
| BodyRead (n : nat)
| Tick (now : DateUTC).

(** One event. A change reaches [handleInputChange] when a widget of the form
    offers the value; a submit reaches the handler when the button is not
    disabled; a settled promise resumes the call that awaits it. *)
Definition step (F : Form) (e : Event) (a : App) : App :=
  match e with
  | Change wd v =>
      if in_dec Widget_eq_dec wd (widgets F) then
        if offers wd v then
          resume (handleInputChange (field_of wd) v) (pending a) a
        else a
      else a
  | Submit =>
      if submit_disabled (world a) then a
      else resume (onSubmit F (formData (world a))) (pending a) a
  | Respond n s =>
      match nth_error (pending a) n with
      | Some (OnFetch _ k) => resume (k s) (without n (pending a)) a
      | _ => a
      end
  | BodyRead n =>
      match nth_error (pending a) n with
      | Some (OnText r k) => resume (k (body r)) (without n (pending a)) a
      | _ => a
      end
  | Tick now => mkApp (set_clock now (world a)) (pending a) (unhandled a)
  end.

Definition play (F : Form) (now : DateUTC) (events : list Event) : App :=
  fold_left (fun a e => step F e a) events (mount F now).

(* ================================================================= *)
(** ** [src/components/BusinessScraperForm.tsx] *)

Module Multipart.

Definition initialFormData : Obj :=
  [ ("region", VStr "");
    ("ville", VStr "");
    ("codePostal", VStr "");
    ("secteur", VStr "");
    ("nombreMax", VStr "100");
    ("codeNaf", VStr "");
    ("tailleEntreprise", VStr "");
    ("formeJuridique", VStr "");
    ("caMinimum", VStr "");
    ("caMaximum", VStr "");
    ("anneeCreation", VStr "");
    ("statut", VStr "active");
    ("exclureFranchises", VBool false) ].

Definition new_FormData : list (string * string) := [].

(** The body of the loop: [submitData.append(key, value.toString())] under
    its guard. *)
Definition append_entry (submitData : list (string * string))
    (entry : string * Value) : list (string * string) :=
  let (key, value) := entry in
  if strict_neq value (VStr "") && strict_neq value (VBool false)
  then submitData ++ [(key, toString value)]
  else submitData.

Definition handleSubmit (formData : Obj) : Prog unit :=
  preventDefault ;;
  setIsLoading true ;;
  finally
    (try_catch
       (let submitData :=
          fold_left append_entry (Object_entries formData) new_FormData in
        response <- fetch "/scrape" "POST" [] (FormDataBody submitData) ;;
        (if negb (ok response)
         then Throw (Error ("Erreur HTTP: " ++ decimal (status response)))
         else Ret tt) ;;
        csvData <- text response ;;
        now <- new_Date ;;
        let filename :=
          ("entreprises_" ++ first_piece (split "T" (toISOString now))
           ++ ".csv")%string in
        downloadCSV csvData filename ;;
        toast (mkToast "Recherche terminée"
                 ("Les données ont été téléchargées avec succès ("
                  ++ filename ++ ")")
                 (Some "bg-success text-success-foreground") None))
       (fun error =>
          console_error "Erreur lors de la recherche:" error ;;
          toast (mkToast "Erreur"
                   "Une erreur est survenue lors de la recherche. Veuillez réessayer."
                   None (Some "destructive"))))
    (setIsLoading false).

(** The [FormData] that [handleSubmit] fills from the criteria. *)
Definition submitData (fd : Obj) : list (string * string) :=
  fold_left append_entry (Object_entries fd) new_FormData.

Definition form_widgets : list Widget :=
  [ TextInput "region";
    TextInput "ville";
    TextInput "codePostal";
    TextInput "secteur";
    TextInput "codeNaf";
    SelectOf "tailleEntreprise" ["TPE"; "PE"; "ME"; "GE"];
    TextInput "formeJuridique";
    NumberInput "caMinimum";
    NumberInput "caMaximum";
    NumberInput "nombreMax";
    NumberInput "anneeCreation";
    RadioGroupOf "statut" ["active"; "all"];
    CheckboxOf "exclureFranchises" ].

Definition BusinessScraperForm : Form :=
  mkForm initialFormData form_widgets handleSubmit.

End Multipart.

(* ================================================================= *)
(** ** The second form component: fiber eligibility, JSON body *)

Module JsonForm.

Definition initialFormData : Obj :=
  [ ("location", VStr "");
    ("searchTerms", VStr "");
    ("maxResults", VStr "100");
    ("fiberEligibility", VStr "already-fiber");
    ("nafCodes", VStr "");
    ("legalForms", VStr "");
    ("employeeSize", VStr "all");
    ("creationYearMin", VStr "");
    ("creationYearMax", VStr "");
    ("excludeFranchises", VStr "no") ].

Definition handleSubmit (formData : Obj) : Prog unit :=
  preventDefault ;;
  setIsLoading true ;;
  finally
    (try_catch
       (response <- fetch "/scrape" "POST"
                      [("Content-Type", "application/json")]
                      (TextBody (JSON_stringify formData)) ;;
        (if negb (ok response)
         then Throw (Error ("Erreur HTTP: " ++ decimal (status response)))
         else Ret tt) ;;
        csvData <- text response ;;
        now <- new_Date ;;
        let filename :=
          ("entreprises_" ++ first_piece (split "T" (toISOString now))
           ++ ".csv")%string in
        downloadCSV csvData filename ;;
        toast (mkToast "Recherche terminée"
                 ("Les données ont été téléchargées avec succès ("
                  ++ filename ++ ")")
                 (Some "bg-success text-success-foreground") None))
       (fun error =>
          console_error "Erreur lors de la recherche:" error ;;
          toast (mkToast "Erreur"
                   "Une erreur est survenue lors de la recherche. Veuillez réessayer."
                   None (Some "destructive"))))
    (setIsLoading false).

Record FiberOption : Type := mkOption {
  value : string;
  label : string;
  option_description : string
}.

Definition fiberOptions : list FiberOption :=
  [ mkOption "no-fiber" "Pas de fibre" "Aucune infrastructure fibre";
    mkOption "planned-fiber" "Fibre programmée" "Déploiement prévu";
    mkOption "recent-fiber" "Fibre récente" "Installée récemment";
    mkOption "already-fiber" "Déjà fibré" "Infrastructure complète" ].

Definition maxResults_items : list string := ["50"; "100"; "200"; "500"].

Definition form_widgets : list Widget :=
  [ TextInput "location";
    TextInput "searchTerms";
    SelectOf "maxResults" maxResults_items;
    RadioGroupOf "fiberEligibility" (map value fiberOptions);
    TextInput "nafCodes";
    TextInput "legalForms";
    SelectOf "employeeSize" ["all"; "micro"; "small"; "medium"; "large"];
    NumberInput "creationYearMin";
    NumberInput "creationYearMax";
    SelectOf "excludeFranchises" ["no"; "yes"] ].

Definition BusinessScraperForm : Form :=
  mkForm initialFormData form_widgets handleSubmit.

End JsonForm.

(* ================================================================= *)
(** ** One submission, step by step *)

Definition components : list Form :=
  [Multipart.BusinessScraperForm; JsonForm.BusinessScraperForm].

(** The request of each form. *)
Definition multipart_request (fd : Obj) : Request :=
  mkRequest "/scrape" "POST" [] (FormDataBody (Multipart.submitData fd)).

Definition json_request (fd : Obj) : Request :=
  mkRequest "/scrape" "POST" [("Content-Type", "application/json")]
    (TextBody (JSON_stringify fd)).

(** The two handlers differ in the request alone. What follows names the
    parts they have in common, for the statements below. *)
Definition http_error (response : Response) : Exn :=
  Error ("Erreur HTTP: " ++ decimal (status response)).

Definition csv_filename (now : DateUTC) : string :=
  "entreprises_" ++ first_piece (split "T" (toISOString now)) ++ ".csv".

Definition success_toast (filename : string) : Toast :=
  mkToast "Recherche terminée"
    ("Les données ont été téléchargées avec succès (" ++ filename ++ ")")
    (Some "bg-success text-success-foreground") None.

Definition error_toast : Toast :=
  mkToast "Erreur"
    "Une erreur est survenue lors de la recherche. Veuillez réessayer."
    None (Some "destructive").

(** The [try] block, from the request on. *)
Definition receive (request : Prog Response) : Prog unit :=
  response <- request ;;
  (if negb (ok response) then Throw (http_error response) else Ret tt) ;;
  csvData <- text response ;;
  now <- new_Date ;;
  let filename := csv_filename now in
  downloadCSV csvData filename ;;
  toast (success_toast filename).

(** The [catch] block. *)
Definition on_error (error : Exn) : Prog unit :=
  console_error "Erreur lors de la recherche:" error ;;
  toast error_toast.

(** [handleSubmit] around the request [request]. *)
Definition submit_with (request : Prog Response) : Prog unit :=
  preventDefault ;;
  setIsLoading true ;;
  finally (try_catch (receive request) on_error) (setIsLoading false).

(** The world once [handleSubmit] has reached its [await fetch]. *)
Definition started (rq : Request) (w : World) : World :=
  sent rq (exec (SetIsLoading true) (exec PreventDefault w)).

(** The world after the [catch] block, then the [finally] block. *)
Definition failed (e : Exn) (w : World) : World :=
  exec (SetIsLoading false)
    (exec (ShowToast error_toast)
       (exec (ConsoleError "Erreur lors de la recherche:" e) w)).

(** The world after the download and the toast of the [try] block, then the
    [finally] block. *)
Definition delivered (csv : string) (w : World) : World :=
  let filename := csv_filename (clock w) in
  let link := mkAnchor (Some (mkBlob [csv] "text/csv;charset=utf-8;"))
                (Some filename) in
  exec (SetIsLoading false)
    (exec (ShowToast (success_toast filename))
       (exec (RemoveChild link) (exec (Click link) (exec (AppendChild link) w)))).

(** What the user sees of a failure [e]: it is logged, the error toast is
    shown, no link was added to the page and no file was saved. *)
Definition reported (e : Exn) (w w' : World) : Prop :=
  console w' = console w ++ [("Erreur lors de la recherche:", e)]
  /\ toasts w' = toasts w ++ [error_toast]
  /\ children w' = children w
  /\ downloads w' = downloads w.

(** The calendar date of a time value, as [YYYY-MM-DD]. *)
Definition iso_date (d : DateUTC) : string :=
  pad 4 (year d) ++ "-" ++ pad 2 (month d) ++ "-" ++ pad 2 (day d).

(** No character of [s] is [sep]. *)
Fixpoint free_of (sep : ascii) (s : string) : bool :=
  match s with
  | EmptyString => true
  | String c rest => negb (Ascii.eqb c sep) && free_of sep rest
  end.

Definition newline : ascii := ascii_of_nat 10.

(** The body of the spec's example: two lines of two cells. *)
Definition example_csv : string := "a,b" ++ String newline "1,2".

(** The time of day of a time value, as [HH:mm:ss.sssZ]. *)
Definition iso_time (d : DateUTC) : string :=
  pad 2 (hours d) ++ ":" ++ pad 2 (minutes d) ++ ":" ++ pad 2 (seconds d)
  ++ "." ++ pad 3 (milliseconds d) ++ "Z".

(** A date of the calendar whose year has at most four digits. *)
Definition calendar_date (d : DateUTC) : bool :=
  Nat.leb (String.length (decimal (year d))) 4
  && Nat.leb 1 (month d) && Nat.leb (month d) 12
  && Nat.leb 1 (day d) && Nat.leb (day d) 31.

(** [piece] stands somewhere in [text]. *)
Definition occurs (piece text : string) : Prop :=
  exists before after : string, text = (before ++ piece ++ after)%string.

(** The guard of the loop that fills the [FormData]: the value is neither
    the empty string nor [false]. *)
Definition kept (entry : string * Value) : bool :=
  strict_neq (snd entry) (VStr "") && strict_neq (snd entry) (VBool false).

Definition as_text (entry : string * Value) : string * string :=
  (fst entry, toString (snd entry)).

(** A network that answers every request with the spec's example. *)
Definition example_net (rq : Request) : Settled Response :=
  Fulfilled (mkResponse 200 (Fulfilled example_csv)).

Definition example_date : DateUTC := mkDate 2026 11 2 7 5 9 42.

(* ================================================================= *)
(** ** What holds of the running component *)

(** A program that ends the call: the busy flag is off, the criteria and
    the requests sent are as they were. *)
Definition finishes (p : Prog unit) : Prop :=
  forall w, exists w',
    advance p w = (w', inr (Fulfilled tt))
    /\ isLoading w' = false
    /\ formData w' = formData w
    /\ requests w' = requests w.

(** A program that stops at once to read a body, then ends the call. *)
Definition awaits_body (p : Prog unit) : Prop :=
  forall w, exists r k,
    advance p w = (w, inl (OnText r k)) /\ forall s, finishes (k s).

Definition settling (s : Suspended) : Prop :=
  match s with
  | OnFetch _ k => forall reply, finishes (k reply) \/ awaits_body (k reply)
  | OnText _ k => forall reply, finishes (k reply)
  end.

(** The invariant of the component: [P] of the criteria, [R] of every
    request sent, no exception left unhandled, and either no call is
    pending and the form is idle, or one call is pending and the form is
    busy. *)
Definition Inv (P : Obj -> Prop) (R : Request -> Prop) (a : App) : Prop :=
  P (formData (world a))
  /\ Forall R (requests (world a))
  /\ unhandled a = []
  /\ match pending a with
     | [] => isLoading (world a) = false
     | [s] => isLoading (world a) = true /\ settling s
     | _ :: _ :: _ => False
     end.

(** The criteria hold one of the items of the select under [field]. *)
Definition holds_one_of (items : list string) (field : string) (fd : Obj)
    : Prop :=
  exists m, obj_get fd field = Some (VStr m) /\ In m items.

(** The criteria hold the value of a number input under [field]. *)
Definition holds_number (field : string) (fd : Obj) : Prop :=
  exists s, obj_get fd field = Some (VStr s)
            /\ (s = EmptyString \/ valid_number s = true).

(** The date in front of the [T] of [toISOString], for any year. *)
Definition date_text (d : DateUTC) : string :=
  (if Nat.leb (String.length (decimal (year d))) 4
   then pad 4 (year d) else "+" ++ pad 6 (year d))
  ++ "-" ++ pad 2 (month d) ++ "-" ++ pad 2 (day d).

(** The two ways a submission ends, seen from the world before and after. *)
Definition ended_in_success (w w' : World) : Prop :=
  exists csv : string,
    downloads w'
      = downloads w
        ++ [mkFile (csv_filename (clock w)) csv "text/csv;charset=utf-8;"]
    /\ toasts w' = toasts w ++ [success_toast (csv_filename (clock w))]
    /\ console w' = console w.

Definition ended_in_failure (w w' : World) : Prop :=
  exists e : Exn, reported e w w'.

(** Two values of the same type: both texts, or both booleans. *)
Definition same_kind (v u : Value) : Prop :=
  match v, u with
  | VStr _, VStr _ => True
  | VBool _, VBool _ => True
  | _, _ => False
  end.

(** Two objects with the same keys in the same order, each key holding
    values of the same type. *)
Definition same_shape (fd fd0 : Obj) : Prop :=
  Forall2 (fun e e0 => fst e = fst e0 /\ same_kind (snd e) (snd e0)) fd fd0.

(** The component after further events. *)
Definition continue (F : Form) (events : list Event) (a : App) : App :=
  fold_left (fun a e => step F e a) events a.

(** One submission answered: the requests sent are as they were, one toast
    more is shown, and one file more is saved or one error more is logged. *)
Definition answered (w w' : World) : Prop :=
  requests w' = requests w
  /\ List.length (toasts w') = S (List.length (toasts w))
  /\ List.length (downloads w') + List.length (console w')
     = S (List.length (downloads w) + List.length (console w)).

Definition answers (p : Prog unit) : Prop :=
  forall w, exists w',
    advance p w = (w', inr (Fulfilled tt)) /\ answered w w'.

Definition reads_then_answers (p : Prog unit) : Prop :=
  forall w, exists r k,
    advance p w = (w, inl (OnText r k)) /\ forall s, answers (k s).

Definition answering (s : Suspended) : Prop :=
  match s with
  | OnFetch _ k => forall reply, answers (k reply) \/ reads_then_answers (k reply)
  | OnText _ k => forall reply, answers (k reply)
  end.

(** The books of the component: every request sent is pending or was
    answered by one toast, and every toast came with a saved file or with a
    logged error. *)
Definition Ledger (a : App) : Prop :=
  List.length (requests (world a))
  = List.length (toasts (world a)) + List.length (pending a)
  /\ List.length (toasts (world a))
     = List.length (downloads (world a)) + List.length (console (world a))
  /\ Forall answering (pending a).

(** What one event does to the criteria, as far as the widgets go: a change
    that a widget of the form offers sets its field, nothing else counts. *)
Definition edit (F : Form) (fd : Obj) (e : Event) : Obj :=
  match e with
  | Change wd v =>
      if in_dec Widget_eq_dec wd (widgets F) then
        if offers wd v then obj_set fd (field_of wd) v else fd
      else fd
  | _ => fd
  end.

Definition edits (F : Form) (events : list Event) (fd : Obj) : Obj :=
  fold_left (edit F) events fd.

(* ================================================================= *)
(** ** The bytes of a response body

    Texts in this development are written as their UTF-8 bytes. Reading a
    body as text decodes its bytes as UTF-8, and the [Blob] writes the text
    back as UTF-8: what follows is the two in one, from bytes to bytes. *)

Definition in_range (lo hi : nat) (c : ascii) : bool :=
  Nat.leb lo (nat_of_ascii c) && Nat.leb (nat_of_ascii c) hi.

Definition is_byte (n : nat) (c : ascii) : bool := Nat.eqb (nat_of_ascii c) n.

(** U+FFFD, the replacement character, in UTF-8. *)
Definition replacement : string :=
  String (ascii_of_nat 239) (String (ascii_of_nat 191)
    (String (ascii_of_nat 189) EmptyString)).

(** The byte order mark, U+FEFF in UTF-8. *)
Definition byte_order_mark : string :=
  String (ascii_of_nat 239) (String (ascii_of_nat 187)
    (String (ascii_of_nat 191) EmptyString)).

(** The bounds of the byte that follows the lead byte [c]. *)
Definition lower_after (c : ascii) : nat :=
  if is_byte 224 c then 160 else if is_byte 240 c then 144 else 128.

Definition upper_after (c : ascii) : nat :=
  if is_byte 237 c then 159 else if is_byte 244 c then 143 else 191.

(** The state of the decoder: how many bytes the sequence still needs, the
    bounds of the next one, and the bytes of the sequence seen so far. *)
Record Utf8 : Type := mkUtf8 {
  needed : nat;
  lower : nat;
  upper : nat;
  seen : string
}.

Definition utf8_start : Utf8 := mkUtf8 0 128 191 EmptyString.

Definition one (c : ascii) : string := String c EmptyString.

(** A byte met outside a sequence: what is written, and the next state. *)
Definition lead (c : ascii) : string * Utf8 :=
  if in_range 0 127 c then (one c, utf8_start)
  else if in_range 194 223 c then (EmptyString, mkUtf8 1 128 191 (one c))
  else if in_range 224 239 c then
    (EmptyString, mkUtf8 2 (lower_after c) (upper_after c) (one c))
  else if in_range 240 244 c then
    (EmptyString, mkUtf8 3 (lower_after c) (upper_after c) (one c))
  else (replacement, utf8_start).

(** One byte. A byte out of bounds inside a sequence ends the sequence with
    a replacement character and is read again as a first byte. *)
Definition utf8_step (st : Utf8) (c : ascii) : string * Utf8 :=
  match needed st with
  | O => lead c
  | S n =>
      if in_range (lower st) (upper st) c then
        match n with
        | O => ((seen st ++ one c)%string, utf8_start)
        | S _ => (EmptyString, mkUtf8 n 128 191 (seen st ++ one c))
        end
      else
        let (out, st') := lead c in ((replacement ++ out)%string, st')
  end.

Fixpoint utf8_run (st : Utf8) (bytes : string) : string :=
  match bytes with
  | EmptyString =>
      match needed st with
      | O => EmptyString
      | S _ => replacement
      end
  | String c rest =>
      let (out, st') := utf8_step st c in (out ++ utf8_run st' rest)%string
  end.


(** A byte order mark in front of the bytes is not part of the text. *)
Definition strip_byte_order_mark (bytes : string) : string :=
  match bytes with
  | String a (String b (String c rest)) =>
      if is_byte 239 a && is_byte 187 b && is_byte 191 c then rest else bytes
  | _ => bytes
  end.

(** [response.text()] followed by [new Blob([text])], on the bytes. *)
Definition text_of_bytes (bytes : string) : string :=
  utf8_run utf8_start (strip_byte_order_mark bytes).



(* ================================================================= *)
(** * Properties *)

(** ** Objects *)

Lemma obj_get_set (o : Obj) (key other : string) (v : Value) :
  obj_get (obj_set o key v) other
  = if String.eqb other key then Some v else obj_get o other.
Proof.
  induction o as [|[k w] rest IH]; simpl.
  - rewrite String.eqb_sym. reflexivity.
  - destruct (String.eqb_spec k key) as [->|Hk]; simpl.
    + destruct (String.eqb_spec key other) as [->|Hko].
      * rewrite String.eqb_refl. reflexivity.
      * destruct (String.eqb_spec other key); congruence.
    + rewrite IH.
      destruct (String.eqb_spec k other) as [->|Hko]; [|reflexivity].
      destruct (String.eqb_spec other key); congruence.
Qed.

Lemma obj_keys_set (o : Obj) (key : string) (v : Value) :
  obj_keys (obj_set o key v)
  = if existsb (String.eqb key) (obj_keys o) then obj_keys o
    else obj_keys o ++ [key].
Proof.
  unfold obj_keys.
  induction o as [|[k w] rest IH]; simpl; [reflexivity|].
  rewrite (String.eqb_sym key k).
  destruct (String.eqb k key); simpl; [reflexivity|].
  rewrite IH. destruct (existsb _ _); reflexivity.
Qed.

(** C9. [handleInputChange field value] sets the named field of the criteria
    to the value: reading any field afterwards gives the new value for the
    named one and the previous content for every other one; the keys keep
    their order (a key the criteria did not have is added last); nothing
    else of the component or of its surroundings changes, and the call
    returns normally. *)
Theorem handleInputChange_updates_only_the_named_field :
  forall (net : Request -> Settled Response) (w : World)
         (field : string) (value : Value) (other : string),
    let w' := fst (run net (handleInputChange field value) w) in
    obj_get (formData w') other
      = (if String.eqb other field then Some value
         else obj_get (formData w) other)
    /\ obj_keys (formData w')
       = (if existsb (String.eqb field) (obj_keys (formData w))
          then obj_keys (formData w)
          else obj_keys (formData w) ++ [field])
    /\ w' = mkWorld (isLoading w) (formData w') (defaultPrevented w) (clock w)
              (children w) (downloads w) (toasts w) (console w) (requests w)
    /\ snd (run net (handleInputChange field value) w) = Fulfilled tt.
Proof.
  intros net w field value other. simpl.
  repeat split.
  - apply obj_get_set.
  - apply obj_keys_set.
Qed.

(** C8. Before any user edit the criteria hold the defaults: in the
    multipart form [statut] is [active] and [exclureFranchises] is [false];
    in the fiber form [fiberEligibility] is [already-fiber] (the spec's
    [already]) and [excludeFranchises] is [no]; neither form is busy. *)
Theorem fresh_criteria_hold_the_defaults :
  forall now : DateUTC,
    let a := world (play Multipart.BusinessScraperForm now []) in
    let b := world (play JsonForm.BusinessScraperForm now []) in
    obj_get (formData a) "statut" = Some (VStr "active")
    /\ obj_get (formData a) "exclureFranchises" = Some (VBool false)
    /\ obj_get (formData b) "fiberEligibility" = Some (VStr "already-fiber")
    /\ obj_get (formData b) "excludeFranchises" = Some (VStr "no")
    /\ isLoading a = false /\ isLoading b = false.
Proof.
  intro now. cbv zeta. repeat split.
Qed.

(** ** One submission run to its end *)

Lemma multipart_submit_shape (fd : Obj) :
  Multipart.handleSubmit fd
  = submit_with (AwaitFetch (multipart_request fd) settle).
Proof. reflexivity. Qed.

Lemma json_submit_shape (fd : Obj) :
  JsonForm.handleSubmit fd = submit_with (AwaitFetch (json_request fd) settle).
Proof. reflexivity. Qed.

Lemma components_build (F : Form) :
  In F components ->
  exists build : Obj -> Request,
    forall fd, onSubmit F fd = submit_with (AwaitFetch (build fd) settle).
Proof.
  intros [<-|[<-|[]]].
  - exists multipart_request. exact multipart_submit_shape.
  - exists json_request. exact json_submit_shape.
Qed.

(** Whatever the [try] block does, the [finally] block of [handleSubmit]
    leaves the busy flag off. *)
Lemma finally_resets_busy {A : Type} (p : Prog A)
    (net : Request -> Settled Response) (w : World) :
  isLoading (fst (run net (finally p (setIsLoading false)) w)) = false.
Proof.
  revert w.
  induction p as [a|e|c k IH|k IH|rq k IH|r k IH]; intro w; simpl; auto.
Qed.

Section OneSubmission.

Variable net : Request -> Settled Response.
Variable rq : Request.
Variable w : World.

Lemma receive_bad_status (r : Response) :
  net rq = Fulfilled r -> ok r = false ->
  run net (receive (AwaitFetch rq settle)) w = (sent rq w, Rejected (http_error r)).
Proof.
  intros Hnet Hok. unfold receive. simpl. rewrite Hnet. simpl.
  rewrite Hok. reflexivity.
Qed.

Lemma run_submit_rejected (e : Exn) :
  net rq = Rejected e ->
  run net (submit_with (AwaitFetch rq settle)) w
  = (failed e (started rq w), Fulfilled tt).
Proof.
  intros Hnet. unfold submit_with, receive. simpl. rewrite Hnet. reflexivity.
Qed.

Lemma run_submit_bad_status (r : Response) :
  net rq = Fulfilled r -> ok r = false ->
  run net (submit_with (AwaitFetch rq settle)) w
  = (failed (http_error r) (started rq w), Fulfilled tt).
Proof.
  intros Hnet Hok. unfold submit_with, receive. simpl. rewrite Hnet. simpl.
  rewrite Hok. reflexivity.
Qed.

Lemma run_submit_unreadable (r : Response) (e : Exn) :
  net rq = Fulfilled r -> ok r = true -> body r = Rejected e ->
  run net (submit_with (AwaitFetch rq settle)) w
  = (failed e (started rq w), Fulfilled tt).
Proof.
  intros Hnet Hok Hbody. unfold submit_with, receive. simpl. rewrite Hnet.
  simpl. rewrite Hok. simpl. rewrite Hbody. reflexivity.
Qed.

Lemma run_submit_success (r : Response) (csv : string) :
  net rq = Fulfilled r -> ok r = true -> body r = Fulfilled csv ->
  run net (submit_with (AwaitFetch rq settle)) w
  = (delivered csv (started rq w), Fulfilled tt).
Proof.
  intros Hnet Hok Hbody. unfold submit_with, receive. simpl. rewrite Hnet.
  simpl. rewrite Hok. simpl. rewrite Hbody. reflexivity.
Qed.

End OneSubmission.

(** The four ways one submission goes: delivered, body unreadable, bad
    status, request rejected. *)
Ltac by_outcome net rq w :=
  let r := fresh "r" in
  let e := fresh "e" in
  let csv := fresh "csv" in
  let Hnet := fresh "Hnet" in
  let Hok := fresh "Hok" in
  let Hbody := fresh "Hbody" in
  destruct (net rq) as [r|e] eqn:Hnet;
  [ destruct (ok r) eqn:Hok;
    [ destruct (body r) as [csv|e] eqn:Hbody;
      [ rewrite (run_submit_success net rq w r csv Hnet Hok Hbody)
      | rewrite (run_submit_unreadable net rq w r e Hnet Hok Hbody) ]
    | rewrite (run_submit_bad_status net rq w r Hnet Hok) ]
  | rewrite (run_submit_rejected net rq w e Hnet) ].

(** C3. When the response has a status outside 200 to 299, the [try] block
    throws [Error] with the message [Erreur HTTP: ] followed by the status in
    decimal; [handleSubmit] catches it, logs it, shows the error toast and
    saves no file. A rejected [fetch] (network failure) and a body that
    cannot be read are caught and reported in the same way. In every case
    the promise of [handleSubmit] is fulfilled: nothing escapes. *)
Theorem failed_submission_is_reported_without_download :
  forall (F : Form) (fd : Obj) (w : World) (r : Response),
    In F components ->
    ok r = false ->
    (forall rq, run (fun _ => Fulfilled r) (receive (AwaitFetch rq settle)) w
                = (sent rq w,
                   Rejected (Error ("Erreur HTTP: " ++ decimal (status r)))))
    /\ (let out := run (fun _ => Fulfilled r) (onSubmit F fd) w in
        reported (Error ("Erreur HTTP: " ++ decimal (status r))) w (fst out)
        /\ snd out = Fulfilled tt)
    /\ (forall e : Exn,
          let out := run (fun _ => Rejected e) (onSubmit F fd) w in
          reported e w (fst out) /\ snd out = Fulfilled tt)
    /\ (forall (e : Exn) (code : nat),
          Nat.leb 200 code && Nat.leb code 299 = true ->
          let out := run (fun _ => Fulfilled (mkResponse code (Rejected e)))
                         (onSubmit F fd) w in
          reported e w (fst out) /\ snd out = Fulfilled tt).
Proof.
  intros F fd w r HF Hok.
  destruct (components_build F HF) as [build Hbuild].
  split; [|split; [|split]].
  - intro rq. apply receive_bad_status; [reflexivity | exact Hok].
  - cbv zeta. rewrite Hbuild.
    rewrite (run_submit_bad_status _ _ w r eq_refl Hok).
    repeat split.
  - intro e. cbv zeta. rewrite Hbuild.
    rewrite (run_submit_rejected (fun _ => Rejected e) _ w e eq_refl).
    repeat split.
  - intros e code Hcode. cbv zeta. rewrite Hbuild.
    rewrite (run_submit_unreadable _ _ w (mkResponse code (Rejected e)) e
               eq_refl Hcode eq_refl).
    repeat split.
Qed.

Lemma failed_submission_witness :
  In Multipart.BusinessScraperForm components
  /\ ok (mkResponse 404 (Fulfilled example_csv)) = false
  /\ console (fst (run (fun _ => Fulfilled (mkResponse 404 (Fulfilled example_csv)))
                       (Multipart.handleSubmit Multipart.initialFormData)
                       (world (mount Multipart.BusinessScraperForm
                                 (mkDate 2026 11 2 7 5 9 42)))))
     = [("Erreur lors de la recherche:", Error "Erreur HTTP: 404")].
Proof.
  split; [left; reflexivity|]. split; [reflexivity|].
  pose proof (failed_submission_is_reported_without_download
                Multipart.BusinessScraperForm Multipart.initialFormData
                (world (mount Multipart.BusinessScraperForm
                          (mkDate 2026 11 2 7 5 9 42)))
                (mkResponse 404 (Fulfilled example_csv))
                (or_introl eq_refl) eq_refl) as [_ [[[H _] _] _]].
  exact H.
Defined.

(** C10. However the request and the reading of the body settle, when
    [handleSubmit] has run to its end the busy flag is [false], the criteria
    are the ones it started with, and its promise is fulfilled. *)
Theorem submission_resets_busy_and_keeps_criteria :
  forall (F : Form) (fd : Obj) (net : Request -> Settled Response) (w : World),
    In F components ->
    let out := run net (onSubmit F fd) w in
    isLoading (fst out) = false
    /\ formData (fst out) = formData w
    /\ snd out = Fulfilled tt.
Proof.
  intros F fd net w HF.
  destruct (components_build F HF) as [build Hbuild].
  cbv zeta. rewrite Hbuild. split.
  - unfold submit_with. simpl. apply finally_resets_busy.
  - by_outcome net (build fd) w; split; reflexivity.
Qed.

Lemma submission_resets_busy_witness :
  In JsonForm.BusinessScraperForm components
  /\ isLoading (fst (run (fun _ => Rejected (TypeError "Failed to fetch"))
                         (JsonForm.handleSubmit JsonForm.initialFormData)
                         (world (mount JsonForm.BusinessScraperForm
                                   (mkDate 2026 11 2 7 5 9 42))))) = false.
Proof.
  split; [right; left; reflexivity|].
  exact (proj1 (submission_resets_busy_and_keeps_criteria
                  JsonForm.BusinessScraperForm JsonForm.initialFormData
                  (fun _ => Rejected (TypeError "Failed to fetch"))
                  (world (mount JsonForm.BusinessScraperForm
                            (mkDate 2026 11 2 7 5 9 42)))
                  (or_intror (or_introl eq_refl)))).
Defined.

(** ** The file name *)

Lemma append_assoc (a b c : string) :
  ((a ++ b) ++ c = a ++ (b ++ c))%string.
Proof.
  induction a as [|x a IH]; simpl; [reflexivity | now rewrite IH].
Qed.

Lemma length_append (a b : string) :
  String.length (a ++ b)%string = String.length a + String.length b.
Proof.
  induction a as [|x a IH]; simpl; [reflexivity | now rewrite IH].
Qed.

Lemma length_zeros (n : nat) : String.length (zeros n) = n.
Proof.
  induction n as [|n IH]; simpl; [reflexivity | now rewrite IH].
Qed.

Lemma length_pad (width n : nat) :
  String.length (decimal n) <= width -> String.length (pad width n) = width.
Proof.
  intro H. unfold pad. rewrite length_append, length_zeros. lia.
Qed.

Lemma free_of_append (sep : ascii) (a b : string) :
  free_of sep (a ++ b)%string = free_of sep a && free_of sep b.
Proof.
  induction a as [|x a IH]; simpl; [reflexivity|].
  rewrite IH. now rewrite andb_assoc.
Qed.

Lemma free_of_zeros (n : nat) : free_of "T" (zeros n) = true.
Proof.
  induction n as [|n IH]; simpl; [reflexivity | exact IH].
Qed.

Lemma free_of_digits (u : Decimal.uint) :
  free_of "T" (NilEmpty.string_of_uint u) = true.
Proof.
  induction u; simpl; auto.
Qed.

Lemma free_of_pad (width n : nat) : free_of "T" (pad width n) = true.
Proof.
  unfold pad, decimal.
  now rewrite free_of_append, free_of_zeros, free_of_digits.
Qed.

Lemma free_of_iso_date (d : DateUTC) : free_of "T" (iso_date d) = true.
Proof.
  unfold iso_date.
  rewrite !free_of_append, !free_of_pad. reflexivity.
Qed.

Lemma split_at_first (sep : ascii) (a b : string) :
  free_of sep a = true ->
  split sep (a ++ String sep b)%string = a :: split sep b.
Proof.
  induction a as [|x a IH]; simpl; intro H.
  - now rewrite Ascii.eqb_refl.
  - apply andb_prop in H. destruct H as [Hx Ha].
    apply negb_true_iff in Hx. rewrite Hx, (IH Ha). reflexivity.
Qed.

Lemma toISOString_parts (d : DateUTC) :
  String.length (decimal (year d)) <= 4 ->
  toISOString d = (iso_date d ++ String "T" (iso_time d))%string.
Proof.
  intro H. unfold toISOString, iso_date, iso_time.
  apply Nat.leb_le in H. rewrite H.
  repeat rewrite append_assoc. reflexivity.
Qed.

Lemma csv_filename_date (d : DateUTC) :
  String.length (decimal (year d)) <= 4 ->
  csv_filename d = ("entreprises_" ++ iso_date d ++ ".csv")%string.
Proof.
  intro H. unfold csv_filename.
  rewrite (toISOString_parts d H), split_at_first by apply free_of_iso_date.
  reflexivity.
Qed.

Lemma short_decimal (n : nat) : n <= 31 -> String.length (decimal n) <= 2.
Proof.
  intro H.
  do 32 (destruct n as [|n]; [vm_compute; lia|]).
  lia.
Qed.

Lemma length_iso_date (d : DateUTC) :
  calendar_date d = true -> String.length (iso_date d) = 10.
Proof.
  unfold calendar_date. intro H.
  repeat (apply andb_prop in H; destruct H as [H ?]).
  repeat match goal with
         | E : Nat.leb _ _ = true |- _ => apply Nat.leb_le in E
         end.
  unfold iso_date. repeat rewrite length_append.
  rewrite (length_pad 4 (year d)) by assumption.
  rewrite (length_pad 2 (month d)) by (apply short_decimal; lia).
  rewrite (length_pad 2 (day d)) by (apply short_decimal; lia).
  reflexivity.
Qed.

(** On the text. When the response has a status in 200 to 299 and its body
    reads as the text [csv], [handleSubmit] saves exactly one file: its name is
    [entreprises_] followed by the date of the clock as [YYYY-MM-DD] (ten
    characters) and [.csv], its content is [csv] unchanged, its type is
    [text/csv]; the success toast names the same file and nothing is
    logged as an error. *)
Theorem successful_submission_downloads_the_body :
  forall (F : Form) (fd : Obj) (w : World) (r : Response) (csv : string),
    In F components ->
    ok r = true ->
    body r = Fulfilled csv ->
    calendar_date (clock w) = true ->
    let out := run (fun _ => Fulfilled r) (onSubmit F fd) w in
    let filename := ("entreprises_" ++ iso_date (clock w) ++ ".csv")%string in
    downloads (fst out)
      = downloads w ++ [mkFile filename csv "text/csv;charset=utf-8;"]
    /\ String.length (iso_date (clock w)) = 10
    /\ toasts (fst out) = toasts w ++ [success_toast filename]
    /\ console (fst out) = console w
    /\ snd out = Fulfilled tt.
Proof.
  intros F fd w r csv HF Hok Hbody Hdate.
  destruct (components_build F HF) as [build Hbuild].
  cbv zeta. rewrite Hbuild.
  rewrite (run_submit_success _ _ w r csv eq_refl Hok Hbody).
  assert (Hyear : String.length (decimal (year (clock w))) <= 4).
  { unfold calendar_date in Hdate.
    repeat (apply andb_prop in Hdate; destruct Hdate as [Hdate ?]).
    now apply Nat.leb_le. }
  unfold delivered, started. simpl.
  rewrite (csv_filename_date _ Hyear).
  repeat split. now apply length_iso_date.
Qed.

Lemma successful_submission_witness :
  In Multipart.BusinessScraperForm components
  /\ ok (mkResponse 200 (Fulfilled example_csv)) = true
  /\ calendar_date (mkDate 2026 11 2 7 5 9 42) = true
  /\ downloads
       (fst (run (fun _ => Fulfilled (mkResponse 200 (Fulfilled example_csv)))
                 (Multipart.handleSubmit Multipart.initialFormData)
                 (world (mount Multipart.BusinessScraperForm
                           (mkDate 2026 11 2 7 5 9 42)))))
     = [mkFile "entreprises_2026-11-02.csv" example_csv
          "text/csv;charset=utf-8;"].
Proof.
  split; [left; reflexivity|]. split; [reflexivity|]. split; [reflexivity|].
  exact (proj1 (successful_submission_downloads_the_body
                  Multipart.BusinessScraperForm Multipart.initialFormData
                  (world (mount Multipart.BusinessScraperForm
                            (mkDate 2026 11 2 7 5 9 42)))
                  (mkResponse 200 (Fulfilled example_csv)) example_csv
                  (or_introl eq_refl) eq_refl eq_refl eq_refl)).
Defined.

(** ** The request *)

Lemma run_submit_requests (net : Request -> Settled Response) (rq : Request)
    (w : World) :
  requests (fst (run net (submit_with (AwaitFetch rq settle)) w))
  = requests w ++ [rq].
Proof.
  by_outcome net rq w; reflexivity.
Qed.

Lemma strict_neq_true (v u : Value) : strict_neq v u = true <-> v <> u.
Proof.
  unfold strict_neq. destruct (Value_eq_dec v u); split; congruence.
Qed.

Lemma kept_spec (entry : string * Value) :
  kept entry = true <-> snd entry <> VStr "" /\ snd entry <> VBool false.
Proof.
  unfold kept. rewrite andb_true_iff, !strict_neq_true. reflexivity.
Qed.

Lemma fold_append_entry (fd : Obj) (acc : list (string * string)) :
  fold_left Multipart.append_entry fd acc
  = acc ++ map as_text (filter kept fd).
Proof.
  revert acc. induction fd as [|[k v] rest IH]; intro acc; simpl.
  - now rewrite app_nil_r.
  - rewrite IH. unfold kept at 2. simpl.
    destruct (strict_neq v (VStr "") && strict_neq v (VBool false)); simpl.
    + now rewrite <- app_assoc.
    + reflexivity.
Qed.

Lemma submitData_filter (fd : Obj) :
  Multipart.submitData fd = map as_text (filter kept fd).
Proof.
  unfold Multipart.submitData, Object_entries. apply fold_append_entry.
Qed.

Lemma append_nil_r (a : string) : (a ++ "")%string = a.
Proof.
  induction a as [|x a IH]; simpl; [reflexivity | now rewrite IH].
Qed.

Lemma occurs_concat (sep x : string) (l : list string) :
  In x l -> occurs x (String.concat sep l).
Proof.
  induction l as [|y l IH]; [intros []|].
  intros [->|Hin].
  - destruct l as [|z l]; simpl.
    + exists EmptyString, EmptyString. simpl. now rewrite append_nil_r.
    + exists EmptyString, (sep ++ String.concat sep (z :: l))%string.
      reflexivity.
  - destruct l as [|z l]; [destruct Hin|].
    destruct (IH Hin) as (before & after & E).
    exists (y ++ sep ++ before)%string, after.
    change (String.concat sep (y :: z :: l))
      with (y ++ sep ++ String.concat sep (z :: l))%string.
    rewrite E, !append_assoc. reflexivity.
Qed.

Lemma occurs_JSON_stringify (fd : Obj) :
  Forall (fun entry => occurs (json_member entry) (JSON_stringify fd)) fd.
Proof.
  apply Forall_forall. intros entry Hin.
  destruct (occurs_concat "," (json_member entry) (map json_member fd))
    as (before & after & E).
  { now apply in_map. }
  exists ("{" ++ before)%string, (after ++ "}")%string.
  unfold JSON_stringify, Object_entries. rewrite E, !append_assoc.
  reflexivity.
Qed.

(** C1, as stated, fails: in the multipart form [statut] holds its default
    [active] in the first criteria and is sent all the same. *)
Lemma default_statut_is_serialized :
  ~ (forall (fd : Obj) (k : string) (v : Value),
       In (k, v) fd ->
       v = VStr "" \/ obj_get Multipart.initialFormData k = Some v ->
       ~ In k (map fst (Multipart.submitData fd))).
Proof.
  intro H.
  apply (H Multipart.initialFormData "statut" (VStr "active")).
  - unfold Multipart.initialFormData. simpl. tauto.
  - right. reflexivity.
  - vm_compute. tauto.
Qed.

(** C1, amended. The multipart form sends one request whose [FormData] holds,
    in the order of the criteria, exactly the fields whose value is neither
    the empty string nor [false], each as text; a field that holds a
    non-empty default is among them. The fiber form sends one request whose
    body is the JSON text of the whole criteria: every field stands in it,
    empty or not. *)
Theorem submit_serializes_fields_neither_empty_nor_false :
  forall (fd : Obj) (net : Request -> Settled Response) (w : World),
    requests (fst (run net (Multipart.handleSubmit fd) w))
      = requests w
        ++ [mkRequest "/scrape" "POST" []
              (FormDataBody (Multipart.submitData fd))]
    /\ Multipart.submitData fd = map as_text (filter kept fd)
    /\ (forall (k s : string),
          In (k, s) (Multipart.submitData fd)
          <-> exists v, In (k, v) fd /\ v <> VStr "" /\ v <> VBool false
                        /\ s = toString v)
    /\ requests (fst (run net (JsonForm.handleSubmit fd) w))
       = requests w
         ++ [mkRequest "/scrape" "POST" [("Content-Type", "application/json")]
               (TextBody (JSON_stringify fd))]
    /\ Forall (fun entry => occurs (json_member entry) (JSON_stringify fd)) fd.
Proof.
  intros fd net w. split; [|split; [|split; [|split]]].
  - now rewrite multipart_submit_shape, run_submit_requests.
  - apply submitData_filter.
  - intros k s. rewrite submitData_filter, in_map_iff. split.
    + intros ([k' v] & E & Hin). apply filter_In in Hin.
      destruct Hin as [Hin Hkept]. apply kept_spec in Hkept.
      unfold as_text in E. simpl in *. inversion E; subst.
      exists v. tauto.
    + intros (v & Hin & Hne & Hnf & ->).
      exists (k, v). split; [reflexivity|].
      apply filter_In. split; [exact Hin|]. now apply kept_spec.
  - now rewrite json_submit_shape, run_submit_requests.
  - apply occurs_JSON_stringify.
Qed.

(** C2, as stated, fails: the fiber form sends the first criteria whole, so
    its payload holds [location], an optional field that is empty. *)
Lemma default_json_payload_carries_empty_fields :
  ~ (forall (rq : Request) (text k : string),
       In rq (requests
                (fst (run example_net
                        (JsonForm.handleSubmit JsonForm.initialFormData)
                        (world (mount JsonForm.BusinessScraperForm
                                  example_date))))) ->
       payload rq = TextBody text ->
       occurs (json_string k ++ ":") text ->
       obj_get JsonForm.initialFormData k <> Some (VStr "")).
Proof.
  intro H.
  refine (H (mkRequest "/scrape" "POST" [("Content-Type", "application/json")]
               (TextBody (JSON_stringify JsonForm.initialFormData)))
            (JSON_stringify JsonForm.initialFormData) "location" _ eq_refl _
            eq_refl).
  - rewrite json_submit_shape, run_submit_requests.
    simpl. left. reflexivity.
  - eexists "{"%string, _. vm_compute. reflexivity.
Qed.

(** C2, amended. With the first criteria, the multipart form sends exactly
    [nombreMax=100] and [statut=active] (the empty fields and the [false]
    of [exclureFranchises] are left out); the fiber form sends all ten
    fields, the empty ones as empty strings. *)
Theorem default_criteria_payloads :
  forall (net : Request -> Settled Response) (w : World),
    requests (fst (run net (Multipart.handleSubmit Multipart.initialFormData) w))
      = requests w
        ++ [mkRequest "/scrape" "POST" []
              (FormDataBody [("nombreMax", "100"); ("statut", "active")])]
    /\ requests (fst (run net (JsonForm.handleSubmit JsonForm.initialFormData) w))
       = requests w
         ++ [mkRequest "/scrape" "POST" [("Content-Type", "application/json")]
               (TextBody (JSON_stringify JsonForm.initialFormData))]
    /\ Forall (fun entry =>
                 occurs (json_member entry)
                   (JSON_stringify JsonForm.initialFormData))
         JsonForm.initialFormData
    /\ List.length JsonForm.initialFormData = 10
    /\ occurs (json_member ("location", VStr ""))
         (JSON_stringify JsonForm.initialFormData).
Proof.
  intros net w. split; [|split; [|split; [|split]]].
  - now rewrite multipart_submit_shape, run_submit_requests.
  - now rewrite json_submit_shape, run_submit_requests.
  - apply occurs_JSON_stringify.
  - reflexivity.
  - pose proof (occurs_JSON_stringify JsonForm.initialFormData) as H.
    rewrite Forall_forall in H. apply H. left. reflexivity.
Qed.

(** ** The running component *)

Lemma advance_submit_with (rq : Request) (w : World) :
  exists k,
    advance (submit_with (AwaitFetch rq settle)) w
    = (started rq w, inl (OnFetch rq k))
    /\ settling (OnFetch rq k).
Proof.
  eexists. split; [reflexivity|].
  intros [r|e]; simpl.
  - destruct (ok r); simpl.
    + right. intro w1. do 2 eexists. split; [reflexivity|].
      intros [csv|e] w2; eexists; (split; [reflexivity|]); repeat split.
    + left. intro w1. eexists. split; [reflexivity|]. repeat split.
  - left. intro w1. eexists. split; [reflexivity|]. repeat split.
Qed.

Section Invariant.

Variable F : Form.
Variable build : Obj -> Request.
Hypothesis onSubmit_build :
  forall fd, onSubmit F fd = submit_with (AwaitFetch (build fd) settle).

Variable P : Obj -> Prop.
Variable R : Request -> Prop.
Hypothesis P_initial : P (initial F).
Hypothesis P_change :
  forall wd v fd,
    In wd (widgets F) -> offers wd v = true -> P fd ->
    P (obj_set fd (field_of wd) v).
Hypothesis R_build : forall fd, P fd -> R (build fd).

Lemma Inv_mount (now : DateUTC) : Inv P R (mount F now).
Proof.
  unfold Inv. simpl. auto.
Qed.

Lemma nth_error_one {A : Type} (x y : A) (n : nat) :
  nth_error [x] n = Some y -> n = 0 /\ y = x.
Proof.
  destruct n as [|[|n]]; simpl; intro H; inversion H; auto.
Qed.

Lemma Inv_resume_finishes (a : App) (p : Prog unit) :
  Inv P R a -> finishes p ->
  Inv P R (resume p [] a).
Proof.
  intros (HP & HR & HU & _) Hfin.
  destruct (Hfin (world a)) as (w' & E & Hbusy & Hfd & Hrq).
  unfold resume. rewrite E. unfold Inv. simpl.
  rewrite Hfd, Hrq. auto.
Qed.

Lemma Inv_resume_awaits (a : App) (p : Prog unit) :
  Inv P R a -> isLoading (world a) = true -> awaits_body p ->
  Inv P R (resume p [] a).
Proof.
  intros (HP & HR & HU & _) Hbusy Haw.
  destruct (Haw (world a)) as (r & k & E & Hk).
  unfold resume. rewrite E. unfold Inv. simpl. auto.
Qed.

Lemma Inv_step (e : Event) (a : App) : Inv P R a -> Inv P R (step F e a).
Proof.
  intro HI. pose proof HI as (HP & HR & HU & Hpend).
  destruct e as [wd v| |n reply|n|now]; simpl.
  - destruct (in_dec Widget_eq_dec wd (widgets F)) as [Hin|]; [|exact HI].
    destruct (offers wd v) eqn:Hoff; [|exact HI].
    unfold resume, Inv; simpl. auto.
  - unfold submit_disabled.
    destruct (isLoading (world a)) eqn:Hbusy; [exact HI|].
    destruct (pending a) as [|s [|s' rest]] eqn:Hp;
      [|destruct Hpend; congruence|destruct Hpend].
    destruct (advance_submit_with (build (formData (world a))) (world a))
      as (k & E & Hk).
    unfold resume. rewrite onSubmit_build, E. unfold Inv. simpl.
    repeat split; auto.
    apply Forall_app. split; [exact HR|]. constructor; auto.
  - destruct (nth_error (pending a) n) as [[rq k|r k]|] eqn:Hn;
      try exact HI.
    destruct (pending a) as [|s [|s' rest]] eqn:Hp;
      [destruct n; discriminate| |destruct Hpend].
    apply nth_error_one in Hn. destruct Hn as [-> <-].
    destruct Hpend as [Hbusy Hs]. simpl.
    destruct (Hs reply) as [Hfin|Haw].
    + now apply Inv_resume_finishes.
    + now apply Inv_resume_awaits.
  - destruct (nth_error (pending a) n) as [[rq k|r k]|] eqn:Hn;
      try exact HI.
    destruct (pending a) as [|s [|s' rest]] eqn:Hp;
      [destruct n; discriminate| |destruct Hpend].
    apply nth_error_one in Hn. destruct Hn as [-> <-].
    destruct Hpend as [Hbusy Hs]. simpl.
    apply Inv_resume_finishes; [exact HI | apply Hs].
  - unfold Inv. simpl. auto.
Qed.

Lemma Inv_play (now : DateUTC) (events : list Event) :
  Inv P R (play F now events).
Proof.
  unfold play. generalize (Inv_mount now). generalize (mount F now).
  induction events as [|e events IH]; intros a Ha; simpl; [exact Ha|].
  apply IH. now apply Inv_step.
Qed.

End Invariant.

Lemma components_invariant (F : Form) (now : DateUTC) (events : list Event) :
  In F components ->
  Inv (fun _ => True) (fun _ => True) (play F now events).
Proof.
  intro HF. destruct (components_build F HF) as [build Hbuild].
  apply (Inv_play F build Hbuild); auto.
Qed.

(** C5. Whatever the user and the network do, at most one call of
    [handleSubmit] is pending; the submit button is disabled exactly while
    one is; and while one is pending a further submit leaves the component
    as it is: no second request is sent. *)
Theorem one_submission_at_a_time :
  forall (F : Form) (now : DateUTC) (events : list Event),
    In F components ->
    let a := play F now events in
    List.length (pending a) <= 1
    /\ submit_disabled (world a) = negb (Nat.eqb (List.length (pending a)) 0)
    /\ (pending a = [] \/ step F Submit a = a).
Proof.
  intros F now events HF. cbv zeta.
  destruct (components_invariant F now events HF) as (_ & _ & _ & H).
  unfold submit_disabled.
  destruct (pending (play F now events)) as [|s [|s' rest]] eqn:Hp; simpl.
  - rewrite H. auto.
  - destruct H as [Hbusy _]. rewrite Hbusy.
    repeat split; auto. right.
    unfold submit_disabled. now rewrite Hbusy.
  - destruct H.
Qed.

Lemma one_submission_witness :
  In Multipart.BusinessScraperForm components
  /\ List.length
       (pending (play Multipart.BusinessScraperForm example_date
                   [Submit; Change (TextInput "ville") (VStr "Paris"); Submit]))
     <= 1.
Proof.
  split; [left; reflexivity|].
  exact (proj1 (one_submission_at_a_time Multipart.BusinessScraperForm
                  example_date
                  [Submit; Change (TextInput "ville") (VStr "Paris"); Submit]
                  (or_introl eq_refl))).
Defined.


Lemma existsb_eqb_In (s : string) (items : list string) :
  existsb (String.eqb s) items = true -> In s items.
Proof.
  intro H. apply existsb_exists in H. destruct H as (x & Hin & E).
  apply String.eqb_eq in E. now subst.
Qed.



(** C7. Neither form compares a lower bound with an upper bound. In the
    multipart form a revenue from 1000 to 100 is sent as typed; in the fiber
    form a creation year from 2024 to 2020 is sent as typed. *)
Theorem min_above_max_is_submitted :
  (exists (events : list Event) (lo hi : nat) (entries : list (string * string)),
      hi < lo
      /\ requests (world (play Multipart.BusinessScraperForm example_date events))
         = [mkRequest "/scrape" "POST" [] (FormDataBody entries)]
      /\ In ("caMinimum", decimal lo) entries
      /\ In ("caMaximum", decimal hi) entries)
  /\ (exists (events : list Event) (lo hi : nat) (fd : Obj),
         hi < lo
         /\ requests (world (play JsonForm.BusinessScraperForm example_date events))
            = [mkRequest "/scrape" "POST" [("Content-Type", "application/json")]
                 (TextBody (JSON_stringify fd))]
         /\ obj_get fd "creationYearMin" = Some (VStr (decimal lo))
         /\ obj_get fd "creationYearMax" = Some (VStr (decimal hi))).
Proof.
  split.
  - exists [Change (NumberInput "caMinimum") (VStr "1000");
            Change (NumberInput "caMaximum") (VStr "100");
            Submit],
           1000, 100,
           [("nombreMax", "100"); ("caMinimum", "1000"); ("caMaximum", "100");
            ("statut", "active")].
    split; [apply Nat.ltb_lt; vm_compute; reflexivity|].
    split; [vm_compute; reflexivity|].
    split; vm_compute; tauto.
  - exists [Change (NumberInput "creationYearMin") (VStr "2024");
            Change (NumberInput "creationYearMax") (VStr "2020");
            Submit],
           2024, 2020,
           (obj_set (obj_set JsonForm.initialFormData
                       "creationYearMin" (VStr "2024"))
              "creationYearMax" (VStr "2020")).
    split; [apply Nat.ltb_lt; vm_compute; reflexivity|].
    split; [vm_compute; reflexivity|].
    split; vm_compute; reflexivity.
Qed.

(* ================================================================= *)
(** * Further properties of the components *)

(** ** [handleInputChange]: how changes compose *)

Lemma obj_set_twice (o : Obj) (key : string) (v1 v2 : Value) :
  obj_set (obj_set o key v1) key v2 = obj_set o key v2.
Proof.
  induction o as [|[k u] rest IH]; simpl.
  - now rewrite String.eqb_refl.
  - destruct (String.eqb k key) eqn:E; simpl; rewrite E; [reflexivity|].
    now rewrite IH.
Qed.

Lemma obj_set_present_key (o : Obj) (key : string) (v : Value) :
  In key (obj_keys o) -> obj_keys (obj_set o key v) = obj_keys o.
Proof.
  intro H. rewrite obj_keys_set.
  replace (existsb (String.eqb key) (obj_keys o)) with true; [reflexivity|].
  symmetry. apply existsb_exists. exists key. split; [exact H|].
  apply String.eqb_refl.
Qed.

Lemma obj_set_swap (o : Obj) (k1 k2 : string) (v1 v2 : Value) :
  k1 <> k2 ->
  In k1 (obj_keys o) \/ In k2 (obj_keys o) ->
  obj_set (obj_set o k1 v1) k2 v2 = obj_set (obj_set o k2 v2) k1 v1.
Proof.
  intros Hne. induction o as [|[k u] rest IH]; simpl; [intros [[]|[]]|].
  intros Hin.
  destruct (String.eqb k k1) eqn:E1; destruct (String.eqb k k2) eqn:E2;
    simpl; rewrite ?E1, ?E2.
  - apply String.eqb_eq in E1, E2. congruence.
  - reflexivity.
  - reflexivity.
  - apply String.eqb_neq in E1, E2.
    rewrite IH; [reflexivity|].
    destruct Hin as [[E|Hin]|[E|Hin]]; try congruence; auto.
Qed.

Lemma obj_set_same (o : Obj) (key : string) (v : Value) :
  obj_get o key = Some v -> obj_set o key v = o.
Proof.
  induction o as [|[k u] rest IH]; simpl; [discriminate|].
  destruct (String.eqb k key); intro H.
  - now inversion H.
  - now rewrite IH.
Qed.

(** X1. Two changes of the same field in a row leave the component as the
    second change alone does: the later value replaces the earlier one and
    nothing of the earlier change remains. *)
Theorem later_change_of_a_field_wins :
  forall (net : Request -> Settled Response) (w : World)
         (field : string) (v1 v2 : Value),
    run net (handleInputChange field v1 ;; handleInputChange field v2) w
    = run net (handleInputChange field v2) w.
Proof.
  intros net w field v1 v2. simpl. now rewrite obj_set_twice.
Qed.

(** X2. Changes of two different fields can be made in either order with
    the same result, provided at least one of the two is already a field of
    the criteria. *)
Theorem changes_of_different_fields_commute :
  forall (net : Request -> Settled Response) (w : World)
         (f1 f2 : string) (v1 v2 : Value),
    f1 <> f2 ->
    In f1 (obj_keys (formData w)) \/ In f2 (obj_keys (formData w)) ->
    run net (handleInputChange f1 v1 ;; handleInputChange f2 v2) w
    = run net (handleInputChange f2 v2 ;; handleInputChange f1 v1) w.
Proof.
  intros net w f1 f2 v1 v2 Hne Hin. simpl.
  now rewrite (obj_set_swap (formData w) f1 f2 v1 v2 Hne Hin).
Qed.

Lemma changes_commute_witness :
  "ville" <> "region"
  /\ run example_net
       (handleInputChange "ville" (VStr "Paris") ;;
        handleInputChange "region" (VStr "Bretagne"))
       (world (mount Multipart.BusinessScraperForm example_date))
     = run example_net
         (handleInputChange "region" (VStr "Bretagne") ;;
          handleInputChange "ville" (VStr "Paris"))
         (world (mount Multipart.BusinessScraperForm example_date)).
Proof.
  split; [discriminate|].
  apply changes_of_different_fields_commute; [discriminate|].
  left. simpl. tauto.
Defined.

(** X3. Changing a field to the value it already holds leaves the whole
    component as it is. *)
Theorem change_to_the_current_value_is_invisible :
  forall (net : Request -> Settled Response) (w : World)
         (field : string) (value : Value),
    obj_get (formData w) field = Some value ->
    run net (handleInputChange field value) w = (w, Fulfilled tt).
Proof.
  intros net w field value H. simpl. rewrite (obj_set_same _ _ _ H).
  destruct w; reflexivity.
Qed.

Lemma change_to_the_current_value_witness :
  obj_get (formData (world (mount JsonForm.BusinessScraperForm example_date)))
    "maxResults" = Some (VStr "100")
  /\ run example_net (handleInputChange "maxResults" (VStr "100"))
       (world (mount JsonForm.BusinessScraperForm example_date))
     = (world (mount JsonForm.BusinessScraperForm example_date), Fulfilled tt).
Proof.
  split; [reflexivity|].
  apply change_to_the_current_value_is_invisible. reflexivity.
Defined.

(** ** [downloadCSV] *)

Lemma remove_appended {A : Type} (dec : forall x y : A, {x = y} + {x <> y})
    (x : A) (l : list A) :
  ~ In x l -> remove dec x (l ++ [x]) = l.
Proof.
  intro H. rewrite remove_app, (notin_remove dec _ _ H). simpl.
  destruct (dec x x); [apply app_nil_r | congruence].
Qed.

(** The link [downloadCSV] builds for [data] and [filename]. *)
Lemma downloadCSV_run (net : Request -> Settled Response) (w : World)
    (data filename : string) :
  let link := mkAnchor (Some (mkBlob [data] "text/csv;charset=utf-8;"))
                (Some filename) in
  run net (downloadCSV data filename) w
  = (exec (RemoveChild link) (exec (Click link) (exec (AppendChild link) w)),
     Fulfilled tt).
Proof. reflexivity. Qed.

(** X4. [downloadCSV data filename] saves exactly one file, named [filename],
    holding [data] unchanged (an empty text gives an empty file) with the
    type [text/csv]; it leaves no link in the page, and a page that held no
    such link before is as it was; it shows no toast, logs nothing, sends
    nothing, and touches neither the busy flag nor the criteria. *)
Theorem downloadCSV_saves_one_file_and_cleans_up :
  forall (net : Request -> Settled Response) (w : World)
         (data filename : string),
    let link := mkAnchor (Some (mkBlob [data] "text/csv;charset=utf-8;"))
                  (Some filename) in
    let out := run net (downloadCSV data filename) w in
    ~ In link (children w) ->
    downloads (fst out)
      = downloads w ++ [mkFile filename data "text/csv;charset=utf-8;"]
    /\ ~ In link (children (fst out))
    /\ children (fst out) = children w
    /\ toasts (fst out) = toasts w
    /\ console (fst out) = console w
    /\ requests (fst out) = requests w
    /\ isLoading (fst out) = isLoading w
    /\ formData (fst out) = formData w
    /\ snd out = Fulfilled tt.
Proof.
  intros net w data filename link out Hnew. subst out.
  rewrite downloadCSV_run. fold link.
  change (children (fst (exec (RemoveChild link)
                           (exec (Click link) (exec (AppendChild link) w)),
                         Fulfilled tt)))
    with (remove Anchor_eq_dec link (children w ++ [link])).
  split; [reflexivity|].
  split; [apply remove_In|].
  split; [now apply remove_appended|].
  repeat split.
Qed.

Lemma downloadCSV_witness :
  ~ In (mkAnchor (Some (mkBlob [example_csv] "text/csv;charset=utf-8;"))
          (Some "export.csv"))
       (children (world (mount Multipart.BusinessScraperForm example_date)))
  /\ downloads
       (fst (run example_net (downloadCSV example_csv "export.csv")
               (world (mount Multipart.BusinessScraperForm example_date))))
     = [mkFile "export.csv" example_csv "text/csv;charset=utf-8;"].
Proof.
  split; [intros []|].
  exact (proj1 (downloadCSV_saves_one_file_and_cleans_up example_net
                  (world (mount Multipart.BusinessScraperForm example_date))
                  example_csv "export.csv" (fun H => H))).
Defined.

(** ** The [FormData] of the multipart form *)

Lemma kept_text_not_empty (entry : string * Value) :
  kept entry = true -> snd (as_text entry) <> EmptyString.
Proof.
  intro H. apply kept_spec in H. destruct H as [Hempty Hfalse].
  destruct entry as [k [s|[|]]]; simpl in *.
  - intro E. apply Hempty. now rewrite E.
  - discriminate.
  - congruence.
Qed.

(** X5. Whatever the criteria, no entry of the [FormData] that the multipart
    form sends has an empty value, and it has at most as many entries as the
    criteria have fields. *)
Theorem formdata_never_holds_an_empty_value :
  forall fd : Obj,
    Forall (fun entry => snd entry <> EmptyString) (Multipart.submitData fd)
    /\ List.length (Multipart.submitData fd) <= List.length fd.
Proof.
  intro fd. rewrite submitData_filter. split.
  - apply Forall_forall. intros entry Hin.
    apply in_map_iff in Hin. destruct Hin as (e & <- & He).
    apply filter_In in He. now apply kept_text_not_empty.
  - rewrite length_map. apply filter_length_le.
Qed.

Lemma NoDup_filter_keys (fd : Obj) :
  NoDup (obj_keys fd) -> NoDup (map fst (map as_text (filter kept fd))).
Proof.
  unfold obj_keys. induction fd as [|[k v] rest IH]; simpl; intro H.
  - constructor.
  - inversion H as [|k' l Hnotin Hrest]; subst.
    destruct (kept (k, v)); simpl; [|now apply IH].
    constructor; [|now apply IH].
    intro Hin. apply Hnotin.
    rewrite map_map in Hin. apply in_map_iff in Hin.
    destruct Hin as (e & E & He). apply filter_In in He.
    unfold as_text in E. simpl in E. subst k.
    apply (in_map fst rest e). exact (proj1 He).
Qed.

(** X6. When the criteria name no field twice, the [FormData] that the
    multipart form sends names no field twice either. *)
Theorem formdata_names_no_field_twice :
  forall fd : Obj,
    NoDup (obj_keys fd) -> NoDup (map fst (Multipart.submitData fd)).
Proof.
  intros fd H. rewrite submitData_filter. now apply NoDup_filter_keys.
Qed.

Lemma formdata_names_no_field_twice_witness :
  NoDup (obj_keys Multipart.initialFormData)
  /\ NoDup (map fst (Multipart.submitData Multipart.initialFormData)).
Proof.
  assert (H : NoDup (obj_keys Multipart.initialFormData)).
  { unfold Multipart.initialFormData, obj_keys. simpl.
    repeat (constructor; [simpl; intuition discriminate|]). constructor. }
  split; [exact H|].
  exact (formdata_names_no_field_twice Multipart.initialFormData H).
Defined.

Lemma obj_get_In (o : Obj) (key : string) (v : Value) :
  obj_get o key = Some v -> In (key, v) o.
Proof.
  induction o as [|[k u] rest IH]; simpl; [discriminate|].
  destruct (String.eqb_spec k key) as [->|Hk]; intro H.
  - inversion H. now left.
  - right. now apply IH.
Qed.

Lemma In_obj_get (o : Obj) (key : string) (v : Value) :
  NoDup (obj_keys o) -> In (key, v) o -> obj_get o key = Some v.
Proof.
  unfold obj_keys. induction o as [|[k u] rest IH]; simpl; [intros _ []|].
  intros Hnd [E|Hin]; inversion Hnd as [|k' l Hnotin Hrest]; subst.
  - inversion E; subst. now rewrite String.eqb_refl.
  - destruct (String.eqb_spec k key) as [->|Hk]; [|now apply IH].
    exfalso. apply Hnotin. change key with (fst (key, v)). now apply in_map.
Qed.

(** X7. A boolean field of the criteria is sent by the multipart form if and
    only if it is [true], and then as the text [true]: [false] is told by
    the absence of the field. *)
Theorem boolean_field_is_sent_only_when_true :
  forall (fd : Obj) (k : string) (b : bool) (s : string),
    NoDup (obj_keys fd) ->
    obj_get fd k = Some (VBool b) ->
    (In (k, s) (Multipart.submitData fd) <-> b = true /\ s = "true").
Proof.
  intros fd k b s Hnd Hget. rewrite submitData_filter, in_map_iff. split.
  - intros ([k' v] & E & Hin). apply filter_In in Hin.
    destruct Hin as [Hin Hkept]. unfold as_text in E. simpl in E.
    inversion E; subst.
    rewrite (In_obj_get fd k v Hnd Hin) in Hget. inversion Hget; subst.
    destruct b; [auto|]. vm_compute in Hkept. discriminate.
  - intros [-> ->]. exists (k, VBool true). split; [reflexivity|].
    apply filter_In. split; [now apply obj_get_In|reflexivity].
Qed.

Lemma boolean_field_witness :
  NoDup (obj_keys (obj_set Multipart.initialFormData "exclureFranchises"
                     (VBool true)))
  /\ In ("exclureFranchises", "true")
        (Multipart.submitData
           (obj_set Multipart.initialFormData "exclureFranchises"
              (VBool true))).
Proof.
  assert (H : NoDup (obj_keys (obj_set Multipart.initialFormData
                                 "exclureFranchises" (VBool true)))).
  { unfold Multipart.initialFormData, obj_keys. simpl.
    repeat (constructor; [simpl; intuition discriminate|]). constructor. }
  split; [exact H|].
  apply (boolean_field_is_sent_only_when_true
           (obj_set Multipart.initialFormData "exclureFranchises" (VBool true))
           "exclureFranchises" true "true" H eq_refl).
  split; reflexivity.
Defined.

(** ** [handleSubmit]: the two ways it ends *)

(** X8. For both forms and whatever the network does, one submission ends in
    exactly one of two ways: either one file is saved, the success toast
    names it and nothing is logged; or the failure is logged, the error
    toast is shown and no file is saved. Either way exactly one request was
    sent, the default action of the submit event was prevented, and the
    promise of [handleSubmit] is fulfilled. *)
Theorem submission_ends_in_success_or_failure :
  forall (F : Form) (fd : Obj) (net : Request -> Settled Response) (w : World),
    In F components ->
    let out := run net (onSubmit F fd) w in
    (ended_in_success w (fst out) \/ ended_in_failure w (fst out))
    /\ ~ (ended_in_success w (fst out) /\ ended_in_failure w (fst out))
    /\ List.length (requests (fst out)) = S (List.length (requests w))
    /\ List.length (toasts (fst out)) = S (List.length (toasts w))
    /\ defaultPrevented (fst out) = true
    /\ snd out = Fulfilled tt.
Proof.
  intros F fd net w HF.
  destruct (components_build F HF) as [build Hbuild].
  cbv zeta. rewrite Hbuild.
  assert (Hexcl : forall w',
            ~ (ended_in_success w w' /\ ended_in_failure w w')).
  { intros w' [(csv & _ & _ & Hc) (e & Hc' & _)].
    rewrite Hc in Hc'. apply (f_equal (@List.length _)) in Hc'.
    rewrite length_app in Hc'. simpl in Hc'. lia. }
  split; [|split; [apply Hexcl|]].
  - by_outcome net (build fd) w.
    + left. exists csv. repeat split.
    + right. exists e. repeat split.
    + right. exists (http_error r). repeat split.
    + right. exists e. repeat split.
  - by_outcome net (build fd) w; simpl; rewrite !length_app; simpl;
      repeat split; lia.
Qed.

Lemma submission_ends_witness :
  In JsonForm.BusinessScraperForm components
  /\ defaultPrevented
       (fst (run example_net (JsonForm.handleSubmit JsonForm.initialFormData)
               (world (mount JsonForm.BusinessScraperForm example_date))))
     = true.
Proof.
  split; [right; left; reflexivity|].
  pose proof (submission_ends_in_success_or_failure
                JsonForm.BusinessScraperForm JsonForm.initialFormData
                example_net
                (world (mount JsonForm.BusinessScraperForm example_date))
                (or_intror (or_introl eq_refl)))
    as (_ & _ & _ & _ & H & _).
  exact H.
Defined.

(** ** The file name, for any clock *)

Lemma free_of_date_text (d : DateUTC) : free_of "T" (date_text d) = true.
Proof.
  unfold date_text.
  destruct (Nat.leb (String.length (decimal (year d))) 4);
    rewrite !free_of_append, !free_of_pad; reflexivity.
Qed.

Lemma toISOString_date_text (d : DateUTC) :
  toISOString d = (date_text d ++ String "T" (iso_time d))%string.
Proof.
  unfold toISOString, date_text, iso_time.
  repeat rewrite append_assoc. reflexivity.
Qed.

Lemma csv_filename_date_text (d : DateUTC) :
  csv_filename d = ("entreprises_" ++ date_text d ++ ".csv")%string.
Proof.
  unfold csv_filename.
  rewrite toISOString_date_text, split_at_first by apply free_of_date_text.
  reflexivity.
Qed.

(** X9. The name of the downloaded file depends on the date of the clock
    alone: two clocks that agree on the year, the month and the day give the
    same name, whatever the time of day; in particular the name never holds
    the text [undefined] in place of the date. *)
Theorem file_name_depends_on_the_date_alone :
  forall d1 d2 : DateUTC,
    year d1 = year d2 -> month d1 = month d2 -> day d1 = day d2 ->
    csv_filename d1 = csv_filename d2
    /\ csv_filename d1 = ("entreprises_" ++ date_text d1 ++ ".csv")%string.
Proof.
  intros d1 d2 Hy Hm Hd. split; [|apply csv_filename_date_text].
  rewrite !csv_filename_date_text. unfold date_text.
  now rewrite Hy, Hm, Hd.
Qed.

Lemma file_name_witness :
  year (mkDate 2026 11 2 7 5 9 42) = year (mkDate 2026 11 2 23 59 59 999)
  /\ csv_filename (mkDate 2026 11 2 7 5 9 42)
     = csv_filename (mkDate 2026 11 2 23 59 59 999).
Proof.
  split; [reflexivity|].
  exact (proj1 (file_name_depends_on_the_date_alone
                  (mkDate 2026 11 2 7 5 9 42) (mkDate 2026 11 2 23 59 59 999)
                  eq_refl eq_refl eq_refl)).
Defined.

(** ** The criteria of the running component *)

Lemma same_shape_refl (fd : Obj) : same_shape fd fd.
Proof.
  unfold same_shape. induction fd as [|[k v] rest IH]; constructor; auto.
  split; [reflexivity|]. destruct v; exact I.
Qed.

Lemma same_shape_keys (fd fd0 : Obj) :
  same_shape fd fd0 -> obj_keys fd = obj_keys fd0.
Proof.
  unfold same_shape, obj_keys.
  induction 1 as [|e e0 l l0 [Hk _] _ IH]; simpl; [reflexivity|].
  now rewrite Hk, IH.
Qed.

Lemma same_shape_set (fd fd0 : Obj) (key : string) (v v0 : Value) :
  same_shape fd fd0 -> obj_get fd0 key = Some v0 -> same_kind v v0 ->
  same_shape (obj_set fd key v) fd0.
Proof.
  unfold same_shape. intros H. revert key v v0.
  induction H as [|[k u] [k0 u0] l l0 [Hk Hu] Hrest IH]; intros key v v0;
    simpl in *; [discriminate|].
  subst k0. destruct (String.eqb k key) eqn:E; intros Hget Hkind.
  - inversion Hget; subst. constructor; auto.
  - constructor; [auto|]. now apply (IH key v v0).
Qed.

Lemma widgets_keep_kind (F : Form) (wd : Widget) (v : Value) :
  In F components -> In wd (widgets F) -> offers wd v = true ->
  exists v0, obj_get (initial F) (field_of wd) = Some v0 /\ same_kind v v0.
Proof.
  intros [<-|[<-|[]]] Hin Hoff; simpl in Hin;
    repeat (destruct Hin as [<-|Hin];
            [destruct v; try discriminate; eexists; split;
             [reflexivity|exact I]|]);
    destruct Hin.
Qed.

Lemma Inv_continue (F : Form) (build : Obj -> Request)
    (P : Obj -> Prop) (R : Request -> Prop) (events : list Event) (a : App) :
  (forall fd, onSubmit F fd = submit_with (AwaitFetch (build fd) settle)) ->
  (forall wd v fd,
      In wd (widgets F) -> offers wd v = true -> P fd ->
      P (obj_set fd (field_of wd) v)) ->
  (forall fd, P fd -> R (build fd)) ->
  Inv P R a -> Inv P R (continue F events a).
Proof.
  intros Hbuild HP HR. unfold continue. revert a.
  induction events as [|e events IH]; intros a Ha; simpl; [exact Ha|].
  apply IH. now apply (Inv_step F build Hbuild P R HP HR).
Qed.

Lemma play_app (F : Form) (now : DateUTC) (before after : list Event) :
  play F now (before ++ after) = continue F after (play F now before).
Proof.
  unfold play, continue. apply fold_left_app.
Qed.

(** X10. Whatever the user and the network do, the criteria of either form
    keep the shape they had at first: the same fields in the same order,
    each holding a text where it first held a text and a boolean where it
    first held a boolean. Every request sent was built from criteria of that
    shape. *)
Theorem criteria_keep_their_shape :
  forall (F : Form) (now : DateUTC) (events : list Event),
    In F components ->
    let w := world (play F now events) in
    same_shape (formData w) (initial F)
    /\ obj_keys (formData w) = obj_keys (initial F)
    /\ Forall (fun rq =>
                 exists fd,
                   same_shape fd (initial F)
                   /\ (rq = multipart_request fd \/ rq = json_request fd))
         (requests w).
Proof.
  intros F now events HF. cbv zeta.
  assert (Hchange : forall wd v fd,
             In wd (widgets F) -> offers wd v = true ->
             same_shape fd (initial F) ->
             same_shape (obj_set fd (field_of wd) v) (initial F)).
  { intros wd v fd Hin Hoff Hfd.
    destruct (widgets_keep_kind F wd v HF Hin Hoff) as (v0 & Hget & Hkind).
    now apply (same_shape_set fd (initial F) (field_of wd) v v0). }
  assert (HI : Inv (fun fd => same_shape fd (initial F))
                 (fun rq => exists fd,
                      same_shape fd (initial F)
                      /\ (rq = multipart_request fd \/ rq = json_request fd))
                 (play F now events)).
  { destruct HF as [<-|[<-|[]]].
    - apply (Inv_play Multipart.BusinessScraperForm multipart_request
               multipart_submit_shape); auto.
      + apply same_shape_refl.
      + intros fd Hfd. exists fd. auto.
    - apply (Inv_play JsonForm.BusinessScraperForm json_request
               json_submit_shape); auto.
      + apply same_shape_refl.
      + intros fd Hfd. exists fd. auto. }
  destruct HI as (HP & HR & _).
  split; [exact HP|]. split; [now apply same_shape_keys|exact HR].
Qed.

Lemma criteria_keep_their_shape_witness :
  In Multipart.BusinessScraperForm components
  /\ obj_keys
       (formData
          (world (play Multipart.BusinessScraperForm example_date
                    [Change (CheckboxOf "exclureFranchises") (VBool true);
                     Change (TextInput "ville") (VStr "Paris"); Submit])))
     = obj_keys Multipart.initialFormData.
Proof.
  split; [left; reflexivity|].
  pose proof (criteria_keep_their_shape Multipart.BusinessScraperForm
                example_date
                [Change (CheckboxOf "exclureFranchises") (VBool true);
                 Change (TextInput "ville") (VStr "Paris"); Submit]
                (or_introl eq_refl)) as (_ & H & _).
  exact H.
Defined.

Lemma Inv_with (P : Obj -> Prop) (a : App) :
  Inv (fun _ => True) (fun _ => True) a -> P (formData (world a)) ->
  Inv P (fun _ => True) a.
Proof.
  intros (_ & HR & HU & Hp) HP. unfold Inv. auto.
Qed.

Lemma field_invariant (F : Form) (P : Obj -> Prop) (now : DateUTC)
    (before after : list Event) :
  In F components ->
  (forall wd v fd,
      In wd (widgets F) -> offers wd v = true -> P fd ->
      P (obj_set fd (field_of wd) v)) ->
  P (formData (world (play F now before))) ->
  P (formData (world (play F now (before ++ after)))).
Proof.
  intros HF HP Hbefore. rewrite play_app.
  destruct (components_build F HF) as [build Hbuild].
  apply (Inv_continue F build P (fun _ => True) after (play F now before)
           Hbuild HP (fun _ _ => I)).
  apply Inv_with; [|exact Hbefore].
  destruct (components_build F HF) as [build' Hbuild'].
  apply (Inv_play F build' Hbuild'); auto.
Qed.

(** X11. A field that the form edits only through a select or a radio group
    of the items [items], once it holds one of the items, holds one of them
    ever after: no event brings it back to the empty text or to any other
    value. *)
Theorem chosen_item_stays_an_item :
  forall (F : Form) (field : string) (items : list string) (now : DateUTC)
         (before after : list Event),
    In F components ->
    (forall wd, In wd (widgets F) -> field_of wd = field ->
                wd = SelectOf field items \/ wd = RadioGroupOf field items) ->
    holds_one_of items field (formData (world (play F now before))) ->
    holds_one_of items field
      (formData (world (play F now (before ++ after)))).
Proof.
  intros F field items now before after HF Honly.
  apply field_invariant; [exact HF|].
  intros wd v fd Hin Hoff (m & Hm & Hitems). unfold holds_one_of.
  destruct (String.eqb_spec (field_of wd) field) as [E|E].
  - destruct (Honly wd Hin E) as [-> | ->];
      (destruct v as [s|b]; [|discriminate]);
      exists s; (split; [rewrite obj_get_set; simpl;
                         now rewrite String.eqb_refl|]);
      apply existsb_eqb_In; exact Hoff.
  - exists m. split; [|exact Hitems].
    rewrite obj_get_set.
    destruct (String.eqb_spec field (field_of wd)); congruence.
Qed.

Lemma chosen_item_witness :
  In Multipart.BusinessScraperForm components
  /\ holds_one_of ["TPE"; "PE"; "ME"; "GE"] "tailleEntreprise"
       (formData
          (world (play Multipart.BusinessScraperForm example_date
                    ([Change (SelectOf "tailleEntreprise"
                                ["TPE"; "PE"; "ME"; "GE"]) (VStr "PE")]
                     ++ [Change (TextInput "ville") (VStr "Paris"); Submit])))).
Proof.
  split; [left; reflexivity|].
  apply (chosen_item_stays_an_item Multipart.BusinessScraperForm
           "tailleEntreprise" ["TPE"; "PE"; "ME"; "GE"] example_date
           [Change (SelectOf "tailleEntreprise" ["TPE"; "PE"; "ME"; "GE"])
              (VStr "PE")]
           [Change (TextInput "ville") (VStr "Paris"); Submit]).
  - left. reflexivity.
  - intros wd Hin E. simpl in Hin.
    repeat (destruct Hin as [<-|Hin]; [try discriminate E; auto|]).
    destruct Hin.
  - exists "PE". split; [reflexivity|]. simpl. tauto.
Defined.

(** X12. A field that the form edits only through an input of type number
    holds, at every moment, the empty text or a valid number, provided it
    did so at first. *)
Theorem number_fields_hold_numbers :
  forall (F : Form) (field : string) (now : DateUTC) (events : list Event),
    In F components ->
    (forall wd, In wd (widgets F) -> field_of wd = field ->
                wd = NumberInput field) ->
    holds_number field (initial F) ->
    holds_number field (formData (world (play F now events))).
Proof.
  intros F field now events HF Honly Hfirst.
  apply (field_invariant F (holds_number field) now [] events HF);
    [|exact Hfirst].
  intros wd v fd Hin Hoff (m & Hm & Hnum). unfold holds_number.
  destruct (String.eqb_spec (field_of wd) field) as [E|E].
  - rewrite (Honly wd Hin E) in *.
    destruct v as [s|b]; [|discriminate]. simpl in Hoff.
    exists s. split; [rewrite obj_get_set; now rewrite String.eqb_refl|].
    apply orb_true_iff in Hoff. destruct Hoff as [H|H]; [left|right; exact H].
    now apply String.eqb_eq.
  - exists m. split; [|exact Hnum].
    rewrite obj_get_set.
    destruct (String.eqb_spec field (field_of wd)); congruence.
Qed.

Lemma number_fields_witness :
  In JsonForm.BusinessScraperForm components
  /\ holds_number "creationYearMin"
       (formData
          (world (play JsonForm.BusinessScraperForm example_date
                    [Change (NumberInput "creationYearMin") (VStr "2020");
                     Change (NumberInput "creationYearMin") (VStr "abc")]))).
Proof.
  split; [right; left; reflexivity|].
  apply (number_fields_hold_numbers JsonForm.BusinessScraperForm
           "creationYearMin" example_date).
  - right. left. reflexivity.
  - intros wd Hin E. simpl in Hin.
    repeat (destruct Hin as [<-|Hin]; [try discriminate E; auto|]).
    destruct Hin.
  - exists EmptyString. split; [reflexivity|]. now left.
Defined.

(** ** The books of the running component *)

Lemma advance_submit_answering (rq : Request) (w : World) :
  exists k,
    advance (submit_with (AwaitFetch rq settle)) w
    = (started rq w, inl (OnFetch rq k))
    /\ answering (OnFetch rq k).
Proof.
  eexists. split; [reflexivity|].
  intros [r|e]; simpl.
  - destruct (ok r); simpl.
    + right. intro w1. do 2 eexists. split; [reflexivity|].
      intros [csv|e] w2; eexists; (split; [reflexivity|]);
        unfold answered; simpl; rewrite !length_app; simpl;
        repeat split; lia.
    + left. intro w1. eexists. split; [reflexivity|].
      unfold answered; simpl; rewrite !length_app; simpl; repeat split; lia.
  - left. intro w1. eexists. split; [reflexivity|].
    unfold answered; simpl; rewrite !length_app; simpl; repeat split; lia.
Qed.

Lemma Ledger_step (F : Form) (build : Obj -> Request) (e : Event) (a : App) :
  (forall fd, onSubmit F fd = submit_with (AwaitFetch (build fd) settle)) ->
  Inv (fun _ => True) (fun _ => True) a ->
  Ledger a -> Ledger (step F e a).
Proof.
  intros Hbuild (_ & _ & _ & Hpend) HL.
  pose proof HL as (Hrq & Hts & Hans).
  destruct e as [wd v| |n reply|n|now]; simpl.
  - destruct (in_dec Widget_eq_dec wd (widgets F)); [|exact HL].
    destruct (offers wd v); [|exact HL].
    unfold resume, Ledger; simpl. auto.
  - unfold submit_disabled.
    destruct (isLoading (world a)) eqn:Hbusy; [exact HL|].
    destruct (pending a) as [|s [|s' rest]] eqn:Hp;
      [|destruct Hpend; congruence|destruct Hpend].
    destruct (advance_submit_answering (build (formData (world a))) (world a))
      as (k & E & Hk).
    unfold resume. rewrite Hbuild, E. unfold Ledger. simpl in *.
    rewrite length_app. simpl. repeat split; auto; lia.
  - destruct (nth_error (pending a) n) as [[rq k|r k]|] eqn:Hn;
      try exact HL.
    destruct (pending a) as [|s [|s' rest]] eqn:Hp;
      [destruct n; discriminate| |destruct Hpend].
    apply nth_error_one in Hn. destruct Hn as [-> <-].
    inversion Hans as [|s0 l0 Hs _]; subst. simpl in *.
    destruct (Hs reply) as [Hfin|Haw].
    + destruct (Hfin (world a)) as (w' & E & Hq & Ht & Hd).
      unfold resume. rewrite E. unfold Ledger. simpl.
      rewrite Hq. repeat split; auto; lia.
    + destruct (Haw (world a)) as (r & k' & E & Hk').
      unfold resume. rewrite E. unfold Ledger. simpl.
      repeat split; auto.
  - destruct (nth_error (pending a) n) as [[rq k|r k]|] eqn:Hn;
      try exact HL.
    destruct (pending a) as [|s [|s' rest]] eqn:Hp;
      [destruct n; discriminate| |destruct Hpend].
    apply nth_error_one in Hn. destruct Hn as [-> <-].
    inversion Hans as [|s0 l0 Hs _]; subst. simpl in *.
    destruct (Hs (body r) (world a)) as (w' & E & Hq & Ht & Hd).
    unfold resume. rewrite E. unfold Ledger. simpl.
    rewrite Hq. repeat split; auto; lia.
  - unfold Ledger. simpl. auto.
Qed.

Lemma Ledger_continue (F : Form) (build : Obj -> Request)
    (events : list Event) (a : App) :
  (forall fd, onSubmit F fd = submit_with (AwaitFetch (build fd) settle)) ->
  Inv (fun _ => True) (fun _ => True) a ->
  Ledger a -> Ledger (continue F events a).
Proof.
  intros Hbuild. unfold continue. revert a.
  induction events as [|e events IH]; intros a HI HL; simpl; [exact HL|].
  apply IH.
  - apply (Inv_step F build Hbuild); auto.
  - now apply (Ledger_step F build).
Qed.

(** X13. Whatever the user and the network do, the books of either form
    balance: every request sent is either still pending or was answered by
    exactly one toast; every toast came with exactly one saved file or one
    logged error; and no exception was ever left unhandled. *)
Theorem every_request_is_answered_once :
  forall (F : Form) (now : DateUTC) (events : list Event),
    In F components ->
    let a := play F now events in
    List.length (requests (world a))
    = List.length (toasts (world a)) + List.length (pending a)
    /\ List.length (toasts (world a))
       = List.length (downloads (world a)) + List.length (console (world a))
    /\ unhandled a = [].
Proof.
  intros F now events HF. cbv zeta.
  destruct (components_build F HF) as [build Hbuild].
  assert (HL : Ledger (play F now events)).
  { change (play F now events) with (continue F events (mount F now)).
    apply (Ledger_continue F build events (mount F now) Hbuild).
    - apply Inv_mount. exact I.
    - unfold Ledger. simpl. auto. }
  destruct HL as (H1 & H2 & _).
  destruct (components_invariant F now events HF) as (_ & _ & HU & _).
  auto.
Qed.

Lemma every_request_is_answered_witness :
  In Multipart.BusinessScraperForm components
  /\ List.length
       (requests (world (play Multipart.BusinessScraperForm example_date
                           [Submit; Respond 0 (example_net
                                                 (multipart_request []));
                            BodyRead 0; Submit])))
     = List.length
         (toasts (world (play Multipart.BusinessScraperForm example_date
                           [Submit; Respond 0 (example_net
                                                 (multipart_request []));
                            BodyRead 0; Submit])))
       + List.length
           (pending (play Multipart.BusinessScraperForm example_date
                       [Submit; Respond 0 (example_net
                                             (multipart_request []));
                        BodyRead 0; Submit])).
Proof.
  split; [left; reflexivity|].
  exact (proj1 (every_request_is_answered_once Multipart.BusinessScraperForm
                  example_date
                  [Submit; Respond 0 (example_net (multipart_request []));
                   BodyRead 0; Submit]
                  (or_introl eq_refl))).
Defined.

(** ** What the multipart form always sends *)

(** X14. Every request the multipart form sends names [statut], with the
    value [active] or [all]: the radio group can never be left empty, so the
    field is never dropped from the [FormData]. *)
Theorem statut_is_always_sent :
  forall (now : DateUTC) (events : list Event),
    Forall (fun rq =>
              exists entries m,
                payload rq = FormDataBody entries
                /\ In ("statut", m) entries
                /\ In m ["active"; "all"])
      (requests (world (play Multipart.BusinessScraperForm now events))).
Proof.
  intros now events.
  apply (Inv_play Multipart.BusinessScraperForm multipart_request
           multipart_submit_shape
           (holds_one_of ["active"; "all"] "statut")).
  - exists "active". simpl. auto.
  - intros wd v fd Hin Hoff (m & Hm & Hitems). unfold holds_one_of.
    simpl in Hin.
    repeat (destruct Hin as [<-|Hin];
            [try (exists m; rewrite obj_get_set; simpl; auto; fail)|]);
      try destruct Hin.
    destruct v as [s|b]; [|discriminate].
    exists s. split; [rewrite obj_get_set; reflexivity|].
    apply existsb_eqb_In. exact Hoff.
  - intros fd (m & Hm & Hitems).
    exists (Multipart.submitData fd), m. split; [reflexivity|].
    split; [|exact Hitems].
    rewrite submitData_filter. apply in_map_iff.
    exists ("statut", VStr m). split; [reflexivity|].
    apply filter_In. split; [now apply obj_get_In|].
    apply kept_spec. simpl. split; [|discriminate].
    intro E. inversion E; subst. simpl in Hitems. intuition discriminate.
Qed.

(** ** The browser and the straight-line reading of [handleSubmit] *)

(** X15. From an idle form, a submit followed by the arrival of the answer
    to the request and by the reading of the body, with no other event in
    between, leaves the component exactly as [handleSubmit] run in one go
    against that answer does, with no call pending. Once the answer has
    arrived the call is still pending only if the answer is a response with
    a status in 200 to 299: after any other answer the body is not awaited. *)
Theorem uninterrupted_submission_agrees_with_run :
  forall (F : Form) (a : App) (reply : Settled Response),
    In F components ->
    isLoading (world a) = false ->
    pending a = [] ->
    let sequential :=
      run (fun _ => reply) (onSubmit F (formData (world a))) (world a) in
    let a2 := continue F [Submit; Respond 0 reply] a in
    let a3 := continue F [Submit; Respond 0 reply; BodyRead 0] a in
    world a3 = fst sequential
    /\ pending a3 = []
    /\ unhandled a3 = unhandled a
    /\ (pending a2 = [] \/ exists r, reply = Fulfilled r /\ ok r = true).
Proof.
  intros F a reply HF Hidle Hnone.
  destruct (components_build F HF) as [build Hbuild].
  cbv zeta. rewrite Hbuild.
  set (rq := build (formData (world a))).
  assert (Hsubmit : step F Submit a
                    = resume (submit_with (AwaitFetch rq settle)) [] a).
  { simpl. unfold submit_disabled. now rewrite Hidle, Hnone, Hbuild. }
  unfold continue.
  cbn [fold_left]. rewrite Hsubmit.
  destruct reply as [r|e].
  - destruct (ok r) eqn:Hok.
    + destruct (body r) as [csv|e] eqn:Hbody.
      * rewrite (run_submit_success (fun _ => Fulfilled r) rq (world a) r csv
                   eq_refl Hok Hbody).
        unfold resume. simpl. rewrite Hok. simpl. rewrite Hbody. simpl.
        repeat split. right. exists r. auto.
      * rewrite (run_submit_unreadable (fun _ => Fulfilled r) rq (world a) r e
                   eq_refl Hok Hbody).
        unfold resume. simpl. rewrite Hok. simpl. rewrite Hbody. simpl.
        repeat split. right. exists r. auto.
    + rewrite (run_submit_bad_status (fun _ => Fulfilled r) rq (world a) r
                 eq_refl Hok).
      unfold resume. simpl. rewrite Hok. simpl. repeat split. now left.
  - rewrite (run_submit_rejected (fun _ => Rejected e) rq (world a) e eq_refl).
    unfold resume. simpl. repeat split. now left.
Qed.

Lemma uninterrupted_submission_witness :
  isLoading (world (mount JsonForm.BusinessScraperForm example_date)) = false
  /\ world (continue JsonForm.BusinessScraperForm
              [Submit; Respond 0 (example_net (json_request [])); BodyRead 0]
              (mount JsonForm.BusinessScraperForm example_date))
     = fst (run (fun _ => example_net (json_request []))
              (JsonForm.handleSubmit JsonForm.initialFormData)
              (world (mount JsonForm.BusinessScraperForm example_date))).
Proof.
  split; [reflexivity|].
  exact (proj1 (uninterrupted_submission_agrees_with_run
                  JsonForm.BusinessScraperForm
                  (mount JsonForm.BusinessScraperForm example_date)
                  (example_net (json_request []))
                  (or_intror (or_introl eq_refl)) eq_refl eq_refl)).
Defined.

(** ** Who changes the criteria, and how the busy state ends *)

Lemma step_edits_criteria (F : Form) (build : Obj -> Request) (e : Event)
    (a : App) :
  (forall fd, onSubmit F fd = submit_with (AwaitFetch (build fd) settle)) ->
  Inv (fun _ => True) (fun _ => True) a ->
  formData (world (step F e a)) = edit F (formData (world a)) e.
Proof.
  intros Hbuild (_ & _ & _ & Hpend).
  destruct e as [wd v| |n reply|n|now]; simpl; try reflexivity.
  - destruct (in_dec Widget_eq_dec wd (widgets F)); [|reflexivity].
    destruct (offers wd v); reflexivity.
  - unfold submit_disabled.
    destruct (isLoading (world a)); [reflexivity|].
    destruct (advance_submit_with (build (formData (world a))) (world a))
      as (k & E & _).
    unfold resume. rewrite Hbuild, E. reflexivity.
  - destruct (nth_error (pending a) n) as [[rq k|r k]|] eqn:Hn;
      try reflexivity.
    destruct (pending a) as [|s [|s' rest]] eqn:Hp;
      [destruct n; discriminate| |destruct Hpend].
    apply nth_error_one in Hn. destruct Hn as [-> <-].
    destruct Hpend as [_ Hs]. simpl in Hs.
    destruct (Hs reply) as [Hfin|Haw].
    + destruct (Hfin (world a)) as (w' & E & _ & Hfd & _).
      unfold resume. now rewrite E.
    + destruct (Haw (world a)) as (r & k' & E & _).
      unfold resume. now rewrite E.
  - destruct (nth_error (pending a) n) as [[rq k|r k]|] eqn:Hn;
      try reflexivity.
    destruct (pending a) as [|s [|s' rest]] eqn:Hp;
      [destruct n; discriminate| |destruct Hpend].
    apply nth_error_one in Hn. destruct Hn as [-> <-].
    destruct Hpend as [_ Hs]. simpl in Hs.
    destruct (Hs (body r) (world a)) as (w' & E & _ & Hfd & _).
    unfold resume. now rewrite E.
Qed.

(** X16. The criteria of either form are, at every moment, the first
    criteria with the changes the widgets offered applied in the order they
    were made: submits, answers of the network, body reads and the clock
    never alter them, so an edit made while a request is pending is kept. *)
Theorem only_changes_change_the_criteria :
  forall (F : Form) (now : DateUTC) (events : list Event),
    In F components ->
    formData (world (play F now events)) = edits F events (initial F).
Proof.
  intros F now events HF.
  destruct (components_build F HF) as [build Hbuild].
  unfold play, edits.
  change (initial F) with (formData (world (mount F now))).
  assert (HI : Inv (fun _ => True) (fun _ => True) (mount F now))
    by (apply Inv_mount; exact I).
  revert HI. generalize (mount F now).
  induction events as [|e events IH]; intros a HI; simpl; [reflexivity|].
  rewrite IH by (apply (Inv_step F build Hbuild); auto).
  now rewrite (step_edits_criteria F build e a Hbuild HI).
Qed.

Lemma only_changes_witness :
  In Multipart.BusinessScraperForm components
  /\ formData
       (world (play Multipart.BusinessScraperForm example_date
                 [Submit; Change (TextInput "ville") (VStr "Paris");
                  Respond 0 (example_net (multipart_request []));
                  BodyRead 0]))
     = obj_set Multipart.initialFormData "ville" (VStr "Paris").
Proof.
  split; [left; reflexivity|].
  exact (only_changes_change_the_criteria Multipart.BusinessScraperForm
           example_date
           [Submit; Change (TextInput "ville") (VStr "Paris");
            Respond 0 (example_net (multipart_request [])); BodyRead 0]
           (or_introl eq_refl)).
Defined.

(** X17. The busy state always ends: at any moment, once the pending request
    is answered and the body, if awaited, is read, no call is pending, the
    busy flag is off and the submit button is enabled again, whatever the
    answer was. *)
Theorem busy_state_ends_when_the_network_settles :
  forall (F : Form) (now : DateUTC) (events : list Event)
         (reply : Settled Response),
    In F components ->
    let a := play F now (events ++ [Respond 0 reply; BodyRead 0]) in
    pending a = []
    /\ isLoading (world a) = false
    /\ submit_disabled (world a) = false.
Proof.
  intros F now events reply HF. cbv zeta. rewrite play_app.
  pose proof (components_invariant F now events HF) as HI.
  remember (play F now events) as a eqn:Ea. clear Ea.
  assert (H : pending (continue F [Respond 0 reply; BodyRead 0] a) = []).
  { destruct HI as (_ & _ & _ & Hpend). unfold continue. cbn [fold_left].
    destruct (pending a) as [|s [|s' rest]] eqn:Hp; [| |destruct Hpend].
    - assert (E1 : step F (Respond 0 reply) a = a)
        by (simpl; now rewrite Hp).
      rewrite E1. simpl. now rewrite Hp.
    - destruct Hpend as [_ Hs]. destruct s as [rq k|r k]; simpl in Hs.
      + destruct (Hs reply) as [Hfin|Haw].
        * destruct (Hfin (world a)) as (w' & E & _).
          assert (E1 : step F (Respond 0 reply) a
                       = mkApp w' [] (unhandled a)).
          { simpl. rewrite Hp. simpl. unfold resume. now rewrite E. }
          rewrite E1. reflexivity.
        * destruct (Haw (world a)) as (r & k' & E & Hk').
          assert (E1 : step F (Respond 0 reply) a
                       = mkApp (world a) [OnText r k'] (unhandled a)).
          { simpl. rewrite Hp. simpl. unfold resume. now rewrite E. }
          rewrite E1. simpl.
          destruct (Hk' (body r) (world a)) as (w' & E' & _).
          unfold resume. simpl. now rewrite E'.
      + assert (E1 : step F (Respond 0 reply) a = a)
          by (simpl; now rewrite Hp).
        rewrite E1. simpl. rewrite Hp. simpl.
        destruct (Hs (body r) (world a)) as (w' & E & _).
        unfold resume. now rewrite E. }
  destruct (components_build F HF) as [build Hbuild].
  pose proof (Inv_continue F build (fun _ => True) (fun _ => True)
                [Respond 0 reply; BodyRead 0] a Hbuild
                (fun _ _ _ _ _ _ => I) (fun _ _ => I) HI)
    as (_ & _ & _ & Hpend').
  rewrite H in Hpend'. unfold submit_disabled. auto.
Qed.

Lemma busy_state_ends_witness :
  In JsonForm.BusinessScraperForm components
  /\ isLoading
       (world (play JsonForm.BusinessScraperForm example_date
                 ([Submit] ++ [Respond 0 (Rejected (TypeError "Failed to fetch"));
                               BodyRead 0])))
     = false.
Proof.
  split; [right; left; reflexivity|].
  pose proof (busy_state_ends_when_the_network_settles
                JsonForm.BusinessScraperForm example_date [Submit]
                (Rejected (TypeError "Failed to fetch"))
                (or_intror (or_introl eq_refl))) as (_ & H & _).
  exact H.
Defined.

(* ================================================================= *)
(** * The bytes that are saved *)







Lemma byte_order_mark_dropped (bytes : string) :
  text_of_bytes (byte_order_mark ++ bytes) = utf8_run utf8_start bytes.
Proof. reflexivity. Qed.




(* ================================================================= *)
(** * The number of results that is sent *)




